(** * Writing3D: the feature framework and its XML mapping

    A shallow embedding of
      - pycave/features.py  (CaveFeature),
      - pycave/actions.py   (CaveAction and its subclasses),
      - pyw3d/sounds.py     (W3DSound, generate_blender_audio_from_file),
      - pyw3d/project.py    (W3DProject.__setitem__, sort_groups,
                             toprettyxml),
    together with the statements of the specification that concern them and
    further properties of the code. *)

From Stdlib Require Import ZArith QArith Ascii String.
From stdpp Require Import base gmap strings list pretty.

Local Open Scope string_scope.
Local Open Scope Z_scope.
Set Warnings "-register-all".

(** ** Python values *)

(** What the interpreter provides and the sources only call: floats with their
    conversions, [int()] and [strip()] on text, [repr()] of a string, and the
    instances of feature classes whose module is not among the sources
    (CavePlacement, W3DPlacement).  Such an instance is a dict: it has a
    truth value, a printed form and keys to iterate over. *)
Class Python := {
  float : Type;
  float_eq_dec :: EqDecision float;
  (** [float(n)] for an int [n]; [None] is OverflowError *)
  float_of_Z : Z -> option float;
  (** [float(s)] for a str [s]; [None] is ValueError *)
  float_of_string : string -> option float;
  (** [str(x)] for a float [x] *)
  float_str : float -> string;
  (** [x ? y] on floats; [None] when the two are unordered (nan) *)
  float_compare : float -> float -> option comparison;
  (** [x ? n] for a float [x] and an int [n], which Python compares exactly *)
  float_compare_Z : float -> Z -> option comparison;
  (** [int(s)] for a str [s]; [None] is ValueError *)
  int_of_string : string -> option Z;
  (** [s.strip()] *)
  str_strip : string -> string;
  (** [repr(s)] for a str [s] *)
  str_repr : string -> string;
  obj : Type;
  obj_eq_dec :: EqDecision obj;
  obj_truthy : obj -> bool;
  obj_str : obj -> string;
  obj_keys : obj -> list string;
}.

Section Values.
Context `{Python}.

Inductive pyval :=
| PyNone
| PyBool (b : bool)
| PyInt (z : Z)
| PyFloat (x : float)
| PyStr (s : string)
| PyTuple (l : list pyval)
| PyObj (o : obj).

(** The numeric reading of a value: bool is a subclass of int. *)
Inductive num :=
| NumZ (z : Z)
| NumF (x : float).

Definition as_num (v : pyval) : option num :=
  match v with
  | PyBool b => Some (NumZ (if b then 1 else 0))
  | PyInt z => Some (NumZ z)
  | PyFloat x => Some (NumF x)
  | _ => None
  end.

Definition opp_comparison (c : option comparison) : option comparison :=
  match c with
  | Some c => Some (CompOpp c)
  | None => None
  end.

Definition num_compare (a b : num) : option comparison :=
  match a, b with
  | NumZ x, NumZ y => Some (x ?= y)
  | NumF x, NumZ y => float_compare_Z x y
  | NumZ x, NumF y => opp_comparison (float_compare_Z y x)
  | NumF x, NumF y => float_compare x y
  end.

Definition is_cmp (c : comparison) (o : option comparison) : bool :=
  match o, c with
  | Some Eq, Eq | Some Lt, Lt | Some Gt, Gt => true
  | _, _ => false
  end.

(** [a == b] *)
Fixpoint py_eq (a b : pyval) : bool :=
  match a, b with
  | PyNone, PyNone => true
  | PyStr s, PyStr t => String.eqb s t
  | PyObj o, PyObj p => bool_decide (o = p)
  | PyTuple l, PyTuple m =>
      (fix all2 (l m : list pyval) : bool :=
         match l, m with
         | [], [] => true
         | x :: l', y :: m' => py_eq x y && all2 l' m'
         | _, _ => false
         end) l m
  | _, _ =>
      match as_num a, as_num b with
      | Some x, Some y => is_cmp Eq (num_compare x y)
      | _, _ => false
      end
  end.

(** The exceptions the sources raise or let through. *)
Inductive exn :=
| InvalidArgument (msg : string)
| BadCaveXML (msg : string)
| BadW3DXML (msg : string)
| ConsistencyError (msg : string)
| NotImplementedError (msg : string)
| KeyError (key : string)
| TypeError
| AttributeError
| ValueError
| IndexError
| OverflowError.

Inductive result (A : Type) :=
| Return (a : A)
| Raise (e : exn).
Global Arguments Return {A} a.
Global Arguments Raise {A} e.

Definition bind {A B} (r : result A) (k : A -> result B) : result B :=
  match r with
  | Return a => k a
  | Raise e => Raise e
  end.

(** [a < b] and [a > b] against an int, as Python 3 orders values: numbers
    among themselves, anything else against an int is a TypeError. *)
Definition py_lt_int (a : pyval) (n : Z) : result bool :=
  match as_num a with
  | Some x => Return (is_cmp Lt (num_compare x (NumZ n)))
  | None => Raise TypeError
  end.

Definition py_gt_int (a : pyval) (n : Z) : result bool :=
  match as_num a with
  | Some x => Return (is_cmp Gt (num_compare x (NumZ n)))
  | None => Raise TypeError
  end.

(** [bool(v)] *)
Definition py_truthy (v : pyval) : bool :=
  match v with
  | PyNone => false
  | PyBool b => b
  | PyInt z => negb (z =? 0)
  | PyFloat x => negb (is_cmp Eq (float_compare_Z x 0))
  | PyStr s => negb (String.eqb s EmptyString)
  | PyTuple l => match l with [] => false | _ => true end
  | PyObj o => obj_truthy o
  end.

Definition join (sep : string) (l : list string) : string :=
  match l with
  | [] => EmptyString
  | s :: l' => fold_left (fun acc t => acc +:+ sep +:+ t) l' s
  end.

(** [repr(v)] and [str(v)]: they differ on text only. *)
Fixpoint py_repr (v : pyval) : string :=
  match v with
  | PyNone => "None"
  | PyBool b => if b then "True" else "False"
  | PyInt z => pretty z
  | PyFloat x => float_str x
  | PyStr s => str_repr s
  | PyTuple l =>
      match l with
      | [x] => "(" +:+ py_repr x +:+ ",)"
      | _ => "(" +:+ join ", " (map py_repr l) +:+ ")"
      end
  | PyObj o => obj_str o
  end.

Definition py_str (v : pyval) : string :=
  match v with
  | PyStr s => s
  | _ => py_repr v
  end.

(** [float(v)] *)
Definition py_float (v : pyval) : result pyval :=
  match v with
  | PyBool b =>
      match float_of_Z (if b then 1 else 0) with
      | Some x => Return (PyFloat x)
      | None => Raise OverflowError
      end
  | PyInt z =>
      match float_of_Z z with
      | Some x => Return (PyFloat x)
      | None => Raise OverflowError
      end
  | PyFloat x => Return (PyFloat x)
  | PyStr s =>
      match float_of_string s with
      | Some x => Return (PyFloat x)
      | None => Raise ValueError
      end
  | _ => Raise TypeError
  end.

(** ** pycave/features.py: CaveFeature *)

(** A feature class: its two class attributes.  A validator is a callable
    whose answer the source reads as a truth value. *)
Record feature_class := {
  argument_validators : gmap string (pyval -> bool);
  default_arguments : gmap string pyval;
}.

(** [self.__setitem__(key, value)]: the instance after the write, or the
    exception, in which case the instance is the one before. *)
Definition setitem (K : feature_class) (self : gmap string pyval)
    (key : string) (value : pyval) : result (gmap string pyval) :=
  match (argument_validators K !! key : option (pyval -> bool)) with
  | None =>
      Raise (InvalidArgument
               (key +:+ " not a valid option for this Cave feature"))
  | Some validator =>
      if validator value
      then Return (<[key := value]> self)
      else Raise (InvalidArgument
                    (py_str value +:+ " is not a valid value for option "
                       +:+ key))
  end.

(** [self.__missing__(key)], with the instance it leaves behind. *)
Definition missing (K : feature_class) (self : gmap string pyval)
    (key : string) : (result pyval * gmap string pyval)%type :=
  match default_arguments K !! key with
  | Some d => (Return d, self)
  | None => (Raise (KeyError key), self)
  end.

(** [self[key]]: dict lookup, falling back on [__missing__]. *)
Definition getitem (K : feature_class) (self : gmap string pyval)
    (key : string) : (result pyval * gmap string pyval)%type :=
  match self !! key with
  | Some v => (Return v, self)
  | None => missing K self key
  end.

Definition get (K : feature_class) (self : gmap string pyval)
    (key : string) : result pyval :=
  fst (getitem K self key).

(** [key in self] *)
Definition contains (self : gmap string pyval) (key : string) : bool :=
  bool_decide (is_Some (self !! key)).

(** [self.update(other)] *)
Fixpoint update (K : feature_class) (self : gmap string pyval)
    (other : list (string * pyval)) : result (gmap string pyval) :=
  match other with
  | [] => Return self
  | (key, value) :: rest =>
      bind (setitem K self key value) (fun self' => update K self' rest)
  end.

(** The constructor: positional pairs, then keyword pairs, each through
    [update]. *)
Definition init (K : feature_class) (args kwargs : list (string * pyval))
    : result (gmap string pyval) :=
  bind (update K ∅ args) (fun self => update K self kwargs).

(** [self.is_default(key)] *)
Definition is_default (K : feature_class) (self : gmap string pyval)
    (key : string) : bool :=
  negb (contains self key)
  && bool_decide (is_Some (default_arguments K !! key)).

(** [CaveFeature.fromXML] and [CaveFeature.toXML] *)
Definition CaveFeature_fromXML {node A : Type} (xml_root : node) : result A :=
  Raise (NotImplementedError "fromXML not defined for this feature").

Definition CaveFeature_toXML {handle A : Type} (parent_root : handle)
    : result A :=
  Raise (NotImplementedError "toXML not defined for this feature").

(** The schema has [key] and its validator accepts [value]. *)
Definition accepts (K : feature_class) (key : string) (value : pyval) : Prop :=
  exists validator : pyval -> bool,
    argument_validators K !! key = Some validator /\ validator value = true.

(** An instance all of whose stored values were accepted by the schema. *)
Definition valid (K : feature_class) (self : gmap string pyval) : Prop :=
  forall key value, self !! key = Some value -> accepts K key value.

End Values.

(** ** Documents: xml.etree.ElementTree *)

Section Documents.
Context `{Python}.

Global Instance result_ret : MRet result := fun A a => Return a.
Global Instance result_bind : MBind result := fun A B k r => bind r k.

(** An element as a parser reads it: tag, attributes, text and children. *)
Inductive node :=
| Node (tag : pyval) (attrib : gmap string pyval) (text : option string)
       (children : list node).

Definition tag (n : node) : pyval := let (t, _, _, _) := n in t.
Definition attrib (n : node) : gmap string pyval := let (_, a, _, _) := n in a.
Definition text (n : node) : option string := let (_, _, t, _) := n in t.
Definition children (n : node) : list node := let (_, _, _, c) := n in c.

(** [n.text] as a value: a str or None. *)
Definition text_value (n : node) : pyval :=
  match text n with
  | Some s => PyStr s
  | None => PyNone
  end.

(** [n.find(path)] for a plain tag name: the first child with that tag. *)
Definition find (path : string) (n : node) : option node :=
  List.find (fun c => py_eq (tag c) (PyStr path)) (children n).

(** Serialization mutates the element it is handed.  The state of a
    serializer is the list of the elements created so far, each with the
    element it was appended to: the one handed in, or an earlier creation. *)
Inductive handle :=
| Parent
| Created (i : nat).

Definition handle_eqb (a b : handle) : bool :=
  match a, b with
  | Parent, Parent => true
  | Created i, Created j => Nat.eqb i j
  | _, _ => false
  end.

Record element := {
  e_parent : handle;
  e_tag : pyval;
  e_attrib : gmap string pyval;
  e_text : option string;
}.

Definition ET (A : Type) : Type :=
  list element -> (result A * list element)%type.

Global Instance ET_ret : MRet ET := fun A a st => (Return a, st).
Global Instance ET_bind : MBind ET := fun A B k m st =>
  match m st with
  | (Return a, st') => k a st'
  | (Raise e, st') => (Raise e, st')
  end.

Definition lift {A} (r : result A) : ET A := fun st => (r, st).

Definition when (b : bool) (m : ET unit) : ET unit :=
  if b then m else mret tt.

(** [ET.SubElement(parent, tag, attrib=attrib)] *)
Definition SubElement (parent : handle) (tag : pyval)
    (attrib : gmap string pyval) : ET handle :=
  fun st =>
    (Return (Created (length st)),
     (st ++ [{| e_parent := parent; e_tag := tag; e_attrib := attrib;
                e_text := None |}])%list).

(** [node.text = s], for an element the serializer created. *)
Definition set_text (node : handle) (s : string) : ET unit :=
  fun st =>
    match node with
    | Created i =>
        (Return tt,
         alter (fun e => {| e_parent := e_parent e; e_tag := e_tag e;
                            e_attrib := e_attrib e; e_text := Some s |}) i st)
    | Parent => (Return tt, st)
    end.

(** The trees the created elements form.  An element is created after the
    one it is appended to, so the subtrees of the elements from the [i]th on
    are assembled from the last creation backwards. *)
Fixpoint forest (i : nat) (st : list element) : list (handle * node) :=
  match st with
  | [] => []
  | e :: st' =>
      let rest := forest (S i) st' in
      let mine := List.filter (fun t => handle_eqb (fst t) (Created i)) rest in
      let others :=
        List.filter (fun t => negb (handle_eqb (fst t) (Created i))) rest in
      (e_parent e, Node (e_tag e) (e_attrib e) (e_text e) (map snd mine))
        :: others
  end.

(** The children appended to the element handed in. *)
Definition appended (st : list element) : list node :=
  map snd (List.filter (fun t => handle_eqb (fst t) Parent) (forest 0 st)).

(** The element behind a handle, with all that was appended below it. *)
Definition subtree (st : list element) (h : handle) : option node :=
  match h with
  | Parent => None
  | Created i =>
      match forest i (drop i st) with
      | (_, n) :: _ => Some n
      | [] => None
      end
  end.

(** A serializer run on a childless element: the element it returns. *)
Definition document (m : handle -> ET handle) : result node :=
  match m Parent [] with
  | (Return h, st) =>
      match subtree st h with
      | Some n => Return n
      | None => Raise IndexError
      end
  | (Raise e, _) => Raise e
  end.

(** The marker element [tag] with nothing in it. *)
Definition marker (tag : string) : node := Node (PyStr tag) ∅ None [].

(** The children of the Repeat element for a number of repetitions that
    compares to 0 as [c] and prints as [s]; no comparison holds for nan. *)
Definition repeat_children (c : option comparison) (s : string) : list node :=
  match c with
  | Some Eq => [marker "NoRepeat"]
  | Some Lt => [marker "RepeatForever"]
  | Some Gt => [Node (PyStr "RepeatNum") ∅ (Some s) []]
  | None => []
  end.

(** [C.f(arg)] for a classmethod [f] of [C]: Python passes the class as first
    positional argument, so the call supplies two arguments to a function
    declared with [params] parameters, and is a TypeError unless
    [params = 2]. *)
Definition classmethod_call {A B} (params : nat) (body : A -> result B)
    (arg : A) : result B :=
  if Nat.eqb params 2 then body arg else Raise TypeError.

End Documents.

(** ** Modules of the repository that are not among the sources *)

(** xml_tools, placement and validators are imported by the sources and not
    part of them; what the sources call of them is taken as given.  A
    validator constructor is given by its arguments; numeric bounds are
    written as rationals ([None] for a bound left out). *)
Class Modules `{Python} := {
  bool2text : pyval -> string;
  text2bool : pyval -> result pyval;
  (** [placement.toXML(node)] and [CavePlacement.fromXML(place_root)] *)
  placement_toXML : obj -> handle -> ET handle;
  placement_fromXML : node -> result obj;
  IsNumeric : option Q -> option Q -> pyval -> bool;
  IsNumericIterable : option nat -> pyval -> bool;
  ValidPyString : pyval -> bool;
  ValidFile : pyval -> bool;
  IsBoolean : pyval -> bool;
}.

Section Classes.
Context `{Modules}.

(** Modelled from the spec: validators.py is not among the sources.
    AlwaysValid is the free-form validator of section 3, which accepts every
    value; its argument is the help text. *)
Definition AlwaysValid (help_string : string) : pyval -> bool :=
  fun _ => true.

(** Modelled from the spec: validators.py is not among the sources.
    OptionListValidator (OptionValidator in pyw3d) is OptionFromSet of
    section 3: a value is valid when it is one of the allowed values. *)
Definition OptionListValidator (valid_options : list string) : pyval -> bool :=
  fun value => existsb (fun option => py_eq (PyStr option) value) valid_options.

Definition OptionValidator := OptionListValidator.

(** ** pycave/actions.py *)

Definition ObjectAction : feature_class := {|
  argument_validators := list_to_map [
    ("object_name", AlwaysValid "Name of an object");
    ("duration", IsNumeric (Some 0%Q) None);
    ("visible", AlwaysValid "Either true or false");
    ("placement", AlwaysValid "A CavePlacement object");
    ("move_relative", AlwaysValid "Either true or false");
    ("color", IsNumericIterable (Some 3%nat));
    ("scale", IsNumeric (Some 0%Q) None);
    ("sound_change", OptionListValidator ["Play Sound"; "Stop Sound"]);
    ("link_change",
     OptionListValidator
       ["Enable"; "Disable"; "Activate"; "Activate if enabled"])];
  default_arguments := {[ "duration" := PyInt 1 ]};
|}.

Definition GroupAction : feature_class := {|
  argument_validators := list_to_map [
    ("group_name", AlwaysValid "Name of a group");
    ("duration", IsNumeric (Some 0%Q) None);
    ("visible", AlwaysValid "Either true or false");
    ("placement", AlwaysValid "A CavePlacement object");
    ("move_relative", AlwaysValid "Either true or false");
    ("color", IsNumericIterable (Some 3%nat));
    ("scale", IsNumeric (Some 0%Q) None);
    ("sound_change", OptionListValidator ["Play Sound"; "Stop Sound"]);
    ("link_change",
     OptionListValidator
       ["Enable"; "Disable"; "Activate"; "Activate if enabled"])];
  default_arguments :=
    <["duration" := PyInt 1]> {[ "choose_random" := PyBool false ]};
|}.

Definition TimelineAction : feature_class := {|
  argument_validators := list_to_map [
    ("timeline_name", AlwaysValid "Name of a timeline");
    ("change",
     OptionListValidator
       ["Start"; "Stop"; "Continue"; "Start if not started"])];
  default_arguments := ∅;
|}.

Definition SoundAction : feature_class := {|
  argument_validators := list_to_map [
    ("sound_name", AlwaysValid "Name of a sound");
    ("change", OptionListValidator ["Start"; "Stop"])];
  default_arguments := {[ "change" := PyStr "Start" ]};
|}.

Definition EventTriggerAction : feature_class := {|
  argument_validators := list_to_map [
    ("trigger_name", AlwaysValid "Name of a trigger");
    ("enable", AlwaysValid "Either true or false")];
  default_arguments := ∅;
|}.

Definition MoveCaveAction : feature_class := {|
  argument_validators := list_to_map [
    ("relative", AlwaysValid "Either true or false");
    ("duration", IsNumeric (Some 0%Q) None);
    ("placement", AlwaysValid "A CavePlacement object")];
  default_arguments := {[ "duration" := PyInt 0 ]};
|}.

Definition CaveResetAction : feature_class := {|
  argument_validators := ∅;
  default_arguments := ∅;
|}.

(** The concrete action classes, to tell of which one an instance is. *)
Inductive action_class :=
| IsObjectAction
| IsGroupAction
| IsTimelineAction
| IsSoundAction
| IsEventTriggerAction
| IsMoveCaveAction
| IsCaveResetAction.

Record action := {
  class_of : action_class;
  items : gmap string pyval;
}.

(** [value.toXML(node)] for a stored value: only the instances of the
    placement class have the method. *)
Definition call_toXML (value : pyval) (node : handle) : ET handle :=
  match value with
  | PyObj o => placement_toXML o node
  | _ => lift (Raise AttributeError)
  end.

(** The items a starred argument unpacks to. *)
Definition unpack (value : pyval) : result (list pyval) :=
  match value with
  | PyTuple l => Return l
  | PyStr s => Return (map (fun c => PyStr (String c EmptyString)) (String.list_ascii_of_string s))
  | PyObj o => Return (map PyStr (obj_keys o))
  | _ => Raise TypeError
  end.

(** The format of three placeholders separated by commas, applied to the
    items: those beyond the third are ignored. *)
Definition format_triple (args : list pyval) : result string :=
  match args with
  | a :: b :: c :: _ =>
      Return (py_str a +:+ "," +:+ py_str b +:+ "," +:+ py_str c)
  | _ => Raise IndexError
  end.

(** [ObjectAction.toXML(self, parent_root)] *)
Definition ObjectAction_toXML (self : gmap string pyval)
    (parent_root : handle) : ET handle :=
  object_name ← lift (get ObjectAction self "object_name");
  change_root ←
    SubElement parent_root (PyStr "ObjectChange") {[ "name" := object_name ]};
  duration ← lift (get ObjectAction self "duration");
  trans_root ←
    SubElement change_root (PyStr "Transition") {[ "duration" := duration ]};
  when (contains self "visible") (
    node ← SubElement trans_root (PyStr "Visible") ∅;
    visible ← lift (get ObjectAction self "visible");
    set_text node (bool2text visible));;
  when (contains self "placement") (
    move_relative ← lift (get ObjectAction self "move_relative");
    node ←
      (if py_truthy move_relative
       then SubElement trans_root (PyStr "MoveRel") ∅
       else SubElement trans_root (PyStr "Movement") ∅);
    placement ← lift (get ObjectAction self "placement");
    call_toXML placement node;;
    mret tt);;
  when (contains self "color") (
    node ← SubElement trans_root (PyStr "Color") ∅;
    color ← lift (get ObjectAction self "color");
    args ← lift (unpack color);
    s ← lift (format_triple args);
    set_text node s);;
  when (contains self "scale") (
    node ← SubElement trans_root (PyStr "Scale") ∅;
    scale ← lift (get ObjectAction self "scale");
    set_text node (py_str scale));;
  when (contains self "sound_change") (
    (* the attrib argument is written as a set, which SubElement refuses *)
    lift (get ObjectAction self "sound_change");;
    lift (Raise TypeError));;
  when (contains self "link_change") (
    node ← SubElement trans_root (PyStr "LinkChange") ∅;
    link_change ← lift (get ObjectAction self "link_change");
    if py_eq link_change (PyStr "Enable")
    then SubElement node (PyStr "link_on") ∅;; mret tt
    else if py_eq link_change (PyStr "Disable")
    then SubElement node (PyStr "link_off") ∅;; mret tt
    else if py_eq link_change (PyStr "Activate")
    then SubElement node (PyStr "activate") ∅;; mret tt
    else if py_eq link_change (PyStr "Activate if enabled")
    then SubElement node (PyStr "activate_if_on") ∅;; mret tt
    else mret tt);;
  mret change_root.

(** The body of [ObjectAction.fromXML], whose one parameter is
    [action_root]. *)
Definition ObjectAction_fromXML_body (action_root : node) : result action :=
  let new_action : gmap string pyval := ∅ in
  new_action ←
    match attrib action_root !! "name" with
    | Some name => setitem ObjectAction new_action "object_name" name
    | None => Raise (BadCaveXML "ObjectChange node must have name attribute set")
    end;
  (* without a Transition child, find gives None and reading its attrib is
     an AttributeError *)
  trans_root ←
    match find "Transition" action_root with
    | Some trans_root => Return trans_root
    | None => Raise AttributeError
    end;
  new_action ←
    match attrib trans_root !! "duration" with
    | Some duration =>
        duration ← py_float duration;
        setitem ObjectAction new_action "duration" duration
    | None => Return new_action
    end;
  new_action ←
    match find "Visible" trans_root with
    | Some node =>
        visible ← text2bool (text_value node);
        setitem ObjectAction new_action "visible" visible
    | None => Return new_action
    end;
  let node := find "MoveRel" trans_root in
  '(node, new_action) ←
    match node with
    | Some _ =>
        new_action ← setitem ObjectAction new_action "move_relative" (PyBool true);
        Return (node, new_action)
    | None => Return (find "Movement" trans_root, new_action)
    end;
  new_action ←
    match node with
    | Some node =>
        new_action ←
          setitem ObjectAction new_action "move_relative"
            (default (PyBool false) (new_action !! "move_relative"));
        match find "Placement" node with
        | None =>
            Raise (BadCaveXML
                     "Movement or MoveRel node requires Placement child node")
        | Some place_root =>
            placement ← placement_fromXML place_root;
            setitem ObjectAction new_action "placement" (PyObj placement)
        end
    | None => Return new_action
    end;
  Return {| class_of := IsObjectAction; items := new_action |}.

(** [ObjectAction.fromXML(action_root)]: declared a classmethod with the
    single parameter [action_root]. *)
Definition ObjectAction_fromXML : node -> result action :=
  classmethod_call 1 ObjectAction_fromXML_body.

(** The other subclasses hand the node on to [CaveFeature.fromXML], a
    classmethod declared with [feature_class] and [xml_root]. *)
Definition GroupAction_fromXML_body (groupref_root : node) : result action :=
  classmethod_call 2 CaveFeature_fromXML groupref_root.
Definition GroupAction_fromXML : node -> result action :=
  classmethod_call 1 GroupAction_fromXML_body.

Definition TimelineAction_fromXML_body (timer_change_root : node)
    : result action :=
  classmethod_call 2 CaveFeature_fromXML timer_change_root.
Definition TimelineAction_fromXML : node -> result action :=
  classmethod_call 1 TimelineAction_fromXML_body.

Definition SoundAction_fromXML_body (soundref_root : node) : result action :=
  classmethod_call 2 CaveFeature_fromXML soundref_root.
Definition SoundAction_fromXML : node -> result action :=
  classmethod_call 1 SoundAction_fromXML_body.

Definition EventTriggerAction_fromXML_body (event_root : node)
    : result action :=
  classmethod_call 2 CaveFeature_fromXML event_root.
Definition EventTriggerAction_fromXML : node -> result action :=
  classmethod_call 1 EventTriggerAction_fromXML_body.

Definition MoveCaveAction_fromXML_body (move_cave_root : node)
    : result action :=
  classmethod_call 2 CaveFeature_fromXML move_cave_root.
Definition MoveCaveAction_fromXML : node -> result action :=
  classmethod_call 1 MoveCaveAction_fromXML_body.

Definition CaveResetAction_fromXML_body (restart_root : node) : result action :=
  classmethod_call 2 CaveFeature_fromXML restart_root.
Definition CaveResetAction_fromXML : node -> result action :=
  classmethod_call 1 CaveResetAction_fromXML_body.

(** The body of [CaveAction.fromXML], whose one parameter is
    [action_root]. *)
Definition CaveAction_fromXML_body (action_root : node) : result action :=
  if py_eq (tag action_root) (PyStr "ObjectChange")
  then ObjectAction_fromXML action_root
  else if py_eq (tag action_root) (PyStr "GroupRef")
  then GroupAction_fromXML action_root
  else if py_eq (tag action_root) (PyStr "TimerChange")
  then TimelineAction_fromXML action_root
  else if py_eq (tag action_root) (PyStr "SoundRef")
  then SoundAction_fromXML action_root
  else if py_eq (tag action_root) (PyStr "Event")
  then EventTriggerAction_fromXML action_root
  else if py_eq (tag action_root) (PyStr "MoveCave")
  then MoveCaveAction_fromXML action_root
  else if py_eq (tag action_root) (PyStr "Restart")
  then CaveResetAction_fromXML action_root
  else Raise (BadCaveXML
                ("Indicated action " +:+ py_str (tag action_root)
                   +:+ " is not a valid action type")).

(** [CaveAction.fromXML(action_root)], the dispatch on the tag. *)
Definition CaveAction_fromXML : node -> result action :=
  classmethod_call 1 CaveAction_fromXML_body.

(** ** pyw3d/sounds.py *)

(** Modelled from the spec: pyw3d/features.py is not among the sources.
    W3DFeature is the base class of the pyw3d features; its [set] is the one
    of section 4.2, which fails when the name is not in the schema or the
    validator rejects the value and commits the write otherwise, as
    CaveFeature's does. *)
Definition W3DFeature_setitem := setitem.

(** Modelled from the spec: pyw3d/features.py is not among the sources.
    [get] of section 4.2: the stored value, else the default, else the
    key-not-found error. *)
Definition W3DFeature_get := get.

(** Modelled from the spec: pyw3d/features.py is not among the sources.
    [is_default] of section 4.2: absent from storage and a default exists. *)
Definition W3DFeature_is_default := is_default.

(** The options of the movement_mode validator, in the order given. *)
Definition movement_modes : list string := ["Positional"; "Fixed"].

Definition W3DSound : feature_class := {|
  argument_validators := list_to_map [
    ("name", ValidPyString);
    ("filename", ValidFile);
    ("autostart", IsBoolean);
    ("movement_mode", OptionValidator movement_modes);
    ("repetitions", IsNumeric None None);
    ("frequency_scale", IsNumeric (Some (1 # 2)%Q) (Some 2%Q));
    ("volume_scale", IsNumeric (Some 0%Q) (Some 2%Q));
    ("pan", IsNumeric (Some (-1)%Q) (Some 1%Q))];
  default_arguments := list_to_map [
    ("autostart", PyBool false);
    ("movement_mode", PyStr "Positional");
    ("repetitions", PyInt 0);
    ("frequency_scale", PyInt 1);
    ("volume_scale", PyInt 1);
    ("pan", PyInt 0)];
|}.

(** The message of the ConsistencyError of [toXML], which quotes the key. *)
Definition must_set (key : string) : string :=
  let quote := String (Ascii.ascii_of_nat 34) EmptyString in
  "W3DSound must set a value for " +:+ quote +:+ key +:+ quote +:+ " key".

(** [self[key]] under [try], with [except KeyError] raising [error]. *)
Definition except_KeyError {A} (r : result A) (error : exn) : result A :=
  match r with
  | Raise (KeyError _) => Raise error
  | _ => r
  end.

(** The loop of [toXML] over attrib_map, filling the attributes of the
    Settings element. *)
Fixpoint sound_settings (self : gmap string pyval)
    (attrib_map : list (string * string)) (settings : gmap string pyval)
    : result (gmap string pyval) :=
  match attrib_map with
  | [] => Return settings
  | (key, xml_attrib) :: rest =>
      if negb (W3DFeature_is_default W3DSound self key)
      then
        value ← W3DFeature_get W3DSound self key;
        sound_settings self rest (<[xml_attrib := PyStr (py_str value)]> settings)
      else sound_settings self rest settings
  end.

(** [W3DSound.toXML(self, all_sounds_root)] *)
Definition W3DSound_toXML (self : gmap string pyval)
    (all_sounds_root : handle) : ET handle :=
  let attrib : gmap string pyval := ∅ in
  name ←
    lift (except_KeyError (W3DFeature_get W3DSound self "name")
            (ConsistencyError (must_set "name")));
  let attrib := <["name" := PyStr (py_str name)]> attrib in
  filename ←
    lift (except_KeyError (W3DFeature_get W3DSound self "filename")
            (ConsistencyError (must_set "filename")));
  let attrib := <["filename" := PyStr (py_str filename)]> attrib in
  attrib ←
    (if negb (W3DFeature_is_default W3DSound self "autostart")
     then
       autostart ← lift (W3DFeature_get W3DSound self "autostart");
       mret (<["autostart" := PyStr (bool2text autostart)]> attrib)
     else mret attrib);
  sound_root ← SubElement all_sounds_root (PyStr "Sound") attrib;

  node ← SubElement sound_root (PyStr "Mode") ∅;
  movement_mode ← lift (W3DFeature_get W3DSound self "movement_mode");
  SubElement node movement_mode ∅;;

  node ← SubElement sound_root (PyStr "Repeat") ∅;
  repetitions ← lift (W3DFeature_get W3DSound self "repetitions");
  when (py_eq repetitions (PyInt 0)) (
    SubElement node (PyStr "NoRepeat") ∅;; mret tt);;
  repetitions ← lift (W3DFeature_get W3DSound self "repetitions");
  negative ← lift (py_lt_int repetitions 0);
  when negative (
    SubElement node (PyStr "RepeatForever") ∅;; mret tt);;
  repetitions ← lift (W3DFeature_get W3DSound self "repetitions");
  positive ← lift (py_gt_int repetitions 0);
  when positive (
    node ← SubElement node (PyStr "RepeatNum") ∅;
    repetitions ← lift (W3DFeature_get W3DSound self "repetitions");
    set_text node (py_str repetitions));;

  settings ←
    lift (sound_settings self
            [("frequency_scale", "freq"); ("volume_scale", "volume");
             ("pan", "pan")] ∅);
  SubElement sound_root (PyStr "Settings") settings;;

  mret sound_root.

(** The loop of [fromXML] over the valid options of movement_mode, left at
    the first one the Mode element has a child for. *)
Fixpoint sound_mode (movement_node : node) (new_sound : gmap string pyval)
    (valid_options : list string) : result (gmap string pyval) :=
  match valid_options with
  | [] => Return new_sound
  | mode :: rest =>
      match find mode movement_node with
      | Some _ =>
          W3DFeature_setitem W3DSound new_sound "movement_mode" (PyStr mode)
      | None => sound_mode movement_node new_sound rest
      end
  end.

(** [int(repeat_node.text.strip())]: reading [text] of None, or [strip] of
    None, is an AttributeError. *)
Definition repeat_number (repeat_node : option node) : result pyval :=
  match repeat_node with
  | None => Raise AttributeError
  | Some repeat_node =>
      match text repeat_node with
      | None => Raise AttributeError
      | Some t =>
          match int_of_string (str_strip t) with
          | Some z => Return (PyInt z)
          | None => Raise ValueError
          end
      end
  end.

(** The loop of [fromXML] over xml_map, reading the Settings attributes. *)
Fixpoint sound_read_settings (settings_attrib : gmap string pyval)
    (new_sound : gmap string pyval) (xml_map : list (string * string))
    : result (gmap string pyval) :=
  match xml_map with
  | [] => Return new_sound
  | (key, value) :: rest =>
      match settings_attrib !! key with
      | Some x =>
          x ← py_float x;
          new_sound ← W3DFeature_setitem W3DSound new_sound value x;
          sound_read_settings settings_attrib new_sound rest
      | None => sound_read_settings settings_attrib new_sound rest
      end
  end.

(** The body of [W3DSound.fromXML], whose parameters are [sound_class] and
    [sound_root]; the instance it builds is [sound_class()]. *)
Definition W3DSound_fromXML_body (sound_root : node)
    : result (gmap string pyval) :=
  let new_sound : gmap string pyval := ∅ in
  new_sound ←
    match attrib sound_root !! "name" with
    | Some name => W3DFeature_setitem W3DSound new_sound "name" name
    | None => Raise (BadW3DXML "Sound node must specify name attribute")
    end;
  new_sound ←
    match attrib sound_root !! "filename" with
    | Some filename =>
        W3DFeature_setitem W3DSound new_sound "filename" filename
    | None => Raise (BadW3DXML "Sound node must specify filename attribute")
    end;
  new_sound ←
    match attrib sound_root !! "autostart" with
    | Some autostart =>
        autostart ← text2bool autostart;
        W3DFeature_setitem W3DSound new_sound "autostart" autostart
    | None => Return new_sound
    end;

  movement_node ←
    match find "Mode" sound_root with
    | Some movement_node => Return movement_node
    | None => Raise (BadW3DXML "Sound node must contain Mode child node")
    end;
  new_sound ← sound_mode movement_node new_sound movement_modes;
  (if negb (contains new_sound "movement_mode")
   then Raise (BadW3DXML
                 "Mode node must contain child node specifying a valid mode")
   else Return tt);;

  repeat_node ←
    match find "Repeat" sound_root with
    | Some repeat_node => Return repeat_node
    | None => Raise (BadW3DXML "Sound node must contain Repeat child node")
    end;
  new_sound ←
    match find "NoRepeat" repeat_node with
    | Some _ => W3DFeature_setitem W3DSound new_sound "repetitions" (PyInt 0)
    | None =>
        match find "RepeatForever" repeat_node with
        | Some _ =>
            W3DFeature_setitem W3DSound new_sound "repetitions" (PyInt (-1))
        | None =>
            let repeat_node := find "RepeatNum" repeat_node in
            match repeat_number repeat_node with
            | Raise AttributeError =>
                Raise (BadW3DXML
                         "Repeat node must contain child node specifying repetitions")
            | Raise e => Raise e
            | Return n =>
                W3DFeature_setitem W3DSound new_sound "repetitions" n
            end
        end
    end;

  settings_node ←
    match find "Settings" sound_root with
    | Some settings_node => Return settings_node
    | None => Raise (BadW3DXML "Sound node must have Settings child node")
    end;
  new_sound ←
    sound_read_settings (attrib settings_node) new_sound
      [("freq", "frequency_scale"); ("volume", "volume_scale");
       ("pan", "pan")];

  Return new_sound.

(** [W3DSound.fromXML(sound_root)] *)
Definition W3DSound_fromXML : node -> result (gmap string pyval) :=
  classmethod_call 2 W3DSound_fromXML_body.

(** ** pyw3d/project.py: W3DProject.__setitem__ *)

Inductive logging_level :=
| NOTSET
| DEBUG
| INFO
| WARNING
| ERROR
| CRITICAL.

(** [W3DProject.__setitem__(self, key, value)] with the level of the
    module's LOGGER before and after.  [W3DProject] stands for the class
    attributes of the project class, whose validators are not among the
    sources. *)
Definition W3DProject_setitem (W3DProject : feature_class)
    (LOGGER : logging_level) (self : gmap string pyval) (key : string)
    (value : pyval) : (result (gmap string pyval) * logging_level)%type :=
  let LOGGER :=
    if String.eqb key "debug"
    then (if py_truthy value then DEBUG else WARNING)
    else LOGGER in
  (W3DFeature_setitem W3DProject self key value, LOGGER).

(** ** Agreement of two instances *)

(** [b] agrees with [a] on the attributes [keys]: each of them that is
    explicitly set on [a] is set on [b] too, to an equal value. *)
Definition agrees_on (keys : list string) (a b : gmap string pyval) : Prop :=
  forall key, key ∈ keys ->
    forall value, a !! key = Some value ->
      exists value', b !! key = Some value' /\ py_eq value' value = true.

(** [b] agrees with [a] on every attribute explicitly set on [a]. *)
Definition agrees (a b : gmap string pyval) : Prop :=
  forall key value, a !! key = Some value ->
    exists value', b !! key = Some value' /\ py_eq value' value = true.

(** The value [value] of attribute [key], written as text and read again by
    [reread], comes back equal and is accepted by the schema. *)
Definition survives (K : feature_class) (key : string)
    (reread : pyval -> result pyval) (value : pyval) : Prop :=
  exists value',
    reread value = Return value'
    /\ py_eq value' value = true
    /\ accepts K key value'.

(** [survives] for the attribute as it is on [self], if it is set. *)
Definition survives_in (K : feature_class) (self : gmap string pyval)
    (key : string) (reread : pyval -> result pyval) : Prop :=
  match self !! key with
  | Some value => survives K key reread value
  | None => True
  end.

(** From [b] to [b'], attribute [key] alone has changed, and if it is
    set on [a] then it is set on [b'] to an equal value. *)
Definition extends (a : gmap string pyval) (key : string)
    (b b' : gmap string pyval) : Prop :=
  (forall k, k <> key -> b' !! k = b !! k)
  /\ (forall value, a !! key = Some value ->
        exists value', b' !! key = Some value' /\ py_eq value' value = true).

(** A number of repetitions that the Repeat element can carry: an int not
    below -1 whose decimal text, when positive, [int] reads back. *)
Definition repetitions_carried (value : pyval) : Prop :=
  exists z,
    value = PyInt z /\ -1 <= z
    /\ (0 < z -> int_of_string (str_strip (pretty z)) = Some z).

(** The attributes of a Sound, which are the keys of its schema. *)
Definition sound_keys : list string :=
  ["pan"; "volume_scale"; "frequency_scale"; "repetitions"; "movement_mode";
   "autostart"; "filename"; "name"].

(** The attributes of the Sound element that [toXML] writes for [self]. *)
Definition sound_attrib (self : gmap string pyval) (name filename : pyval)
    : gmap string pyval :=
  let attrib :=
    <["filename" := PyStr (py_str filename)]>
      (<["name" := PyStr (py_str name)]> ∅) in
  match self !! "autostart" with
  | Some autostart => <["autostart" := PyStr (bool2text autostart)]> attrib
  | None => attrib
  end.

(** One more attribute of the Settings element, if [key] is set. *)
Definition with_setting (self : gmap string pyval) (key xml_attrib : string)
    (settings : gmap string pyval) : gmap string pyval :=
  match self !! key with
  | Some value => <[xml_attrib := PyStr (py_str value)]> settings
  | None => settings
  end.

(** The attributes of the Settings element that [toXML] writes for [self]. *)
Definition sound_settings_of (self : gmap string pyval) : gmap string pyval :=
  with_setting self "pan" "pan"
    (with_setting self "volume_scale" "volume"
       (with_setting self "frequency_scale" "freq" ∅)).

(** The Sound element with the given attributes, mode, Repeat children and
    settings. *)
Definition sound_document (attrib : gmap string pyval) (mode : pyval)
    (repeat : list node) (settings : gmap string pyval) : node :=
  Node (PyStr "Sound") attrib None
    [Node (PyStr "Mode") ∅ None [Node mode ∅ None []];
     Node (PyStr "Repeat") ∅ None repeat;
     Node (PyStr "Settings") settings None []].

End Classes.

(** ** A concrete reading of the interpreter and the absent modules *)

(** The statements below hold for every [Python] and [Modules].  To run the
    model on examples, the following instance reads floats as whole numbers
    printed with a trailing [.0], text conversions as decimal notation,
    placements as numbered objects written to a Placement element, booleans
    as the tokens True and False, and the validators by their names. *)
Module Sample.

Definition digit_of (c : Ascii.ascii) : option Z :=
  let n := Z.of_nat (Ascii.nat_of_ascii c) in
  if (48 <=? n) && (n <=? 57) then Some (n - 48) else None.

Fixpoint parse_digits (acc : Z) (s : string) : option Z :=
  match s with
  | EmptyString => Some acc
  | String c s' =>
      match digit_of c with
      | Some d => parse_digits (10 * acc + d) s'
      | None => None
      end
  end.

Definition parse_int (s : string) : option Z :=
  match s with
  | EmptyString => None
  | String "-"%char (String c s') => Z.opp <$> parse_digits 0 (String c s')
  | _ => parse_digits 0 s
  end.

Fixpoint split_dot (s : string) : string * string :=
  match s with
  | EmptyString => (EmptyString, EmptyString)
  | String "."%char s' => (EmptyString, s)
  | String c s' => let (a, b) := split_dot s' in (String c a, b)
  end.

Definition parse_float (s : string) : option Z :=
  let (a, b) := split_dot s in
  if String.eqb b EmptyString || String.eqb b ".0"
  then parse_int a
  else None.

Fixpoint lstrip (s : string) : string :=
  match s with
  | String " "%char s' => lstrip s'
  | _ => s
  end.

Definition strip (s : string) : string :=
  String.rev (lstrip (String.rev (lstrip s))).

Definition python : Python := {|
  float := Z;
  float_of_Z := Some;
  float_of_string := parse_float;
  float_str := fun x => pretty x +:+ ".0";
  float_compare := fun x y => Some (x ?= y);
  float_compare_Z := fun x n => Some (x ?= n);
  int_of_string := parse_int;
  str_strip := strip;
  str_repr := fun s => "'" +:+ s +:+ "'";
  obj := Z;
  obj_truthy := fun _ => true;
  obj_str := fun o => "placement " +:+ pretty o;
  obj_keys := fun _ => ["position"];
|}.

#[local] Existing Instance python.

Definition in_range (lo hi : option Q) (z : Z) : bool :=
  match lo with Some l => Qle_bool l (inject_Z z) | None => true end
  && match hi with Some h => Qle_bool (inject_Z z) h | None => true end.

Definition is_numeric (lo hi : option Q) (v : @pyval python) : bool :=
  match v with
  | PyInt z => in_range lo hi z
  | PyFloat x => in_range lo hi x
  | _ => false
  end.

Definition is_numeric_iterable (len : option nat) (v : @pyval python) : bool :=
  match v with
  | PyTuple l =>
      forallb (is_numeric None None) l
      && match len with Some n => Nat.eqb (length l) n | None => true end
  | _ => false
  end.

Definition is_str (v : @pyval python) : bool :=
  match v with PyStr _ => true | _ => false end.

Definition is_bool (v : @pyval python) : bool :=
  match v with PyBool _ => true | _ => false end.

Definition modules : @Modules python := {|
  bool2text := fun v => if py_truthy v then "True" else "False";
  text2bool := fun v =>
    if py_eq v (PyStr "True") then Return (PyBool true)
    else if py_eq v (PyStr "False") then Return (PyBool false)
    else Raise ValueError;
  placement_toXML := fun (o : obj) node =>
    SubElement node (PyStr "Placement") {[ "id" := PyInt o ]};
  placement_fromXML := fun n =>
    match attrib n !! "id" with
    | Some (PyInt o) => Return (o : obj)
    | _ => Raise (BadCaveXML "Placement node must have id attribute set")
    end;
  IsNumeric := is_numeric;
  IsNumericIterable := is_numeric_iterable;
  ValidPyString := is_str;
  ValidFile := is_str;
  IsBoolean := is_bool;
|}.

(** The float with the whole value [z], and the placement numbered [z]. *)
Definition whole (z : Z) : @float python := z.
Definition numbered (z : Z) : @obj python := z.

(** A class with the debug and far_clip attributes of the project. *)
Definition project : feature_class := {|
  argument_validators :=
    list_to_map [("debug", is_bool); ("far_clip", is_numeric (Some 0%Q) None)];
  default_arguments :=
    list_to_map [("debug", PyBool false); ("far_clip", PyInt 100)];
|}.

(** A sound with every attribute set. *)
Definition full_sound : gmap string pyval :=
  list_to_map [
    ("name", PyStr "hum"); ("filename", PyStr "hum.wav");
    ("autostart", PyBool true); ("movement_mode", PyStr "Fixed");
    ("repetitions", PyInt 3); ("frequency_scale", PyFloat 2);
    ("volume_scale", PyInt 1); ("pan", PyFloat (-1))].

End Sample.

(** ** The documents and instances of the scenarios *)

Section Scenarios.
Context `{Python}.

(** The Object-change action with object_name "Cube" and nothing else. *)
Definition cube : gmap string pyval := {[ "object_name" := PyStr "Cube" ]}.

(** An ObjectChange element named Cube whose one child is a Transition
    element with a duration attribute holding the int 1. *)
Definition cube_document : node :=
  Node (PyStr "ObjectChange") {[ "name" := PyStr "Cube" ]} None
    [Node (PyStr "Transition") {[ "duration" := PyInt 1 ]} None []].

(** An ObjectChange element whose Transition holds a Movement element
    without a Placement child. *)
Definition movement_without_placement : node :=
  Node (PyStr "ObjectChange") {[ "name" := PyStr "Cube" ]} None
    [Node (PyStr "Transition") ∅ None
       [Node (PyStr "Movement") ∅ None []]].

(** A GroupRef element. *)
Definition groupref_document : node :=
  Node (PyStr "GroupRef") {[ "name" := PyStr "Cubes" ]} None [].

(** A sound that is to loop forever, said with -5. *)
Definition looping_sound : gmap string pyval :=
  list_to_map [("name", PyStr "hum"); ("filename", PyStr "hum.wav");
               ("repetitions", PyInt (-5))].

(** An element that is neither a Movement nor a MoveRel element. *)
Definition not_movement (e : element) : Prop :=
  py_eq (e_tag e) (PyStr "Movement") = false
  /\ py_eq (e_tag e) (PyStr "MoveRel") = false.

(** The element [looping_sound] serializes to. *)
Definition looping_document : node :=
  sound_document
    (list_to_map [("name", PyStr "hum"); ("filename", PyStr "hum.wav")])
    (PyStr "Positional") [marker "RepeatForever"] ∅.

(** The same sound, said with -1, with 3 repetitions, and with none given. *)
Definition forever_sound : gmap string pyval :=
  list_to_map [("name", PyStr "hum"); ("filename", PyStr "hum.wav");
               ("repetitions", PyInt (-1))].

Definition thrice_sound : gmap string pyval :=
  list_to_map [("name", PyStr "hum"); ("filename", PyStr "hum.wav");
               ("repetitions", PyInt 3)].

Definition plain_sound : gmap string pyval :=
  list_to_map [("name", PyStr "hum"); ("filename", PyStr "hum.wav")].

End Scenarios.

(** ** More of the sources *)

(** *** pycave/features.py: an update on an instance that stays in use *)

Section Instances.
Context `{Python}.

(** [self.update(other)] on an instance that stays in use: the writes made
    before an exception are kept. *)
Fixpoint update_in_place (K : feature_class) (self : gmap string pyval)
    (other : list (string * pyval))
    : (result unit * gmap string pyval)%type :=
  match other with
  | [] => (Return tt, self)
  | (key, value) :: rest =>
      match setitem K self key value with
      | Return self' => update_in_place K self' rest
      | Raise e => (Raise e, self)
      end
  end.

(** The instance stores no attribute outside [keys]. *)
Definition holds_only (keys : list string) (self : gmap string pyval) : Prop :=
  forall key, is_Some (self !! key) -> key ∈ keys.

End Instances.

(** *** pycave/actions.py and pyw3d/sounds.py: what is written and read *)

Section Readings.
Context `{Modules}.

(** The tags [CaveAction.fromXML] tells apart. *)
Definition action_tags : list string :=
  ["ObjectChange"; "GroupRef"; "TimerChange"; "SoundRef"; "Event";
   "MoveCave"; "Restart"].

(** The children of the Transition element that [ObjectAction.toXML] writes
    for an instance without placement and sound_change, one list for each
    attribute it looks at. *)
Definition visible_children (self : gmap string pyval) : list node :=
  match self !! "visible" with
  | Some visible => [Node (PyStr "Visible") ∅ (Some (bool2text visible)) []]
  | None => []
  end.

Definition color_children (self : gmap string pyval) : list node :=
  match self !! "color" with
  | Some color =>
      match unpack color ≫= format_triple with
      | Return s => [Node (PyStr "Color") ∅ (Some s) []]
      | Raise _ => []
      end
  | None => []
  end.

Definition scale_children (self : gmap string pyval) : list node :=
  match self !! "scale" with
  | Some scale => [Node (PyStr "Scale") ∅ (Some (py_str scale)) []]
  | None => []
  end.

Definition link_children (self : gmap string pyval) : list node :=
  match self !! "link_change" with
  | Some link_change =>
      [Node (PyStr "LinkChange") ∅ None
         (if py_eq link_change (PyStr "Enable") then [marker "link_on"]
          else if py_eq link_change (PyStr "Disable") then [marker "link_off"]
          else if py_eq link_change (PyStr "Activate") then [marker "activate"]
          else if py_eq link_change (PyStr "Activate if enabled")
          then [marker "activate_if_on"]
          else [])]
  | None => []
  end.

(** The ObjectChange element for [self] with the given name and duration. *)
Definition object_document (self : gmap string pyval) (name duration : pyval)
    : node :=
  Node (PyStr "ObjectChange") {[ "name" := name ]} None
    [Node (PyStr "Transition") {[ "duration" := duration ]} None
       (visible_children self ++ color_children self ++ scale_children self
          ++ link_children self)%list].

(** The color of [self], if set, has the three items its text is made of. *)
Definition color_unpacks (self : gmap string pyval) : Prop :=
  match self !! "color" with
  | Some color => exists s, unpack color ≫= format_triple = Return s
  | None => True
  end.

(** What the parser makes of the children of a Repeat element: NoRepeat
    comes before RepeatForever, which comes before RepeatNum. *)
Definition repetitions_read (repeat_node : node) (repetitions : pyval) : Prop :=
  match find "NoRepeat" repeat_node, find "RepeatForever" repeat_node with
  | Some _, _ => repetitions = PyInt 0
  | None, Some _ => repetitions = PyInt (-1)
  | None, None =>
      exists number t z,
        find "RepeatNum" repeat_node = Some number
        /\ text number = Some t
        /\ int_of_string (str_strip t) = Some z
        /\ repetitions = PyInt z
  end.

(** The children of the Repeat element for an int number of repetitions. *)
Definition repeat_children_int (z : Z) : list node :=
  if z <? 0 then [marker "RepeatForever"]
  else if z =? 0 then [marker "NoRepeat"]
  else [Node (PyStr "RepeatNum") ∅ (Some (pretty z)) []].

End Readings.

(** *** pyw3d/sounds.py: generate_blender_audio_from_file *)

(** What Blender provides to pyw3d/sounds.py and the source only calls: the
    data of the running Blender, the operator that opens a sound file, and
    the collection [bpy.data.sounds]. *)
Class Blender := {
  bpy : Type;
  blender_sound : Type;
  (** [BPY_OPS_CALL("sound.open", None, {'filepath': filename})] *)
  sound_open : string -> bpy -> (result unit * bpy)%type;
  (** [bpy.data.sounds] *)
  data_sounds : bpy -> list blender_sound;
}.

Section Audio.
Context `{Blender}.

(** [generate_blender_audio_from_file(filename)].  The function keeps the
    sounds it has made in its attribute [_sounds], which it does not have
    before its first call; it calls itself again after creating the
    attribute and after opening a file.  [depth] bounds the nesting of the
    calls; the state is the attribute and the data of Blender. *)
Fixpoint generate_blender_audio_from_file (depth : nat) (filename : string)
    (_sounds : option (gmap string blender_sound)) (data : bpy)
    : option (result blender_sound * option (gmap string blender_sound) * bpy) :=
  match depth with
  | O => None
  | S depth =>
      match _sounds with
      | None =>
          (* AttributeError: the attribute is created *)
          generate_blender_audio_from_file depth filename (Some ∅) data
      | Some cache =>
          match cache !! filename with
          | Some sound => Some (Return sound, _sounds, data)
          | None =>
              (* KeyError: the file is opened *)
              match sound_open filename data with
              | (Raise e, data) => Some (Raise e, _sounds, data)
              | (Return _, data) =>
                  match data_sounds data !! 0%nat with
                  | None => Some (Raise IndexError, _sounds, data)
                  | Some sound =>
                      generate_blender_audio_from_file depth filename
                        (Some (<[filename := sound]> cache)) data
                  end
              end
          end
      end
  end.

End Audio.

(** *** pyw3d/project.py: sort_groups and toprettyxml *)

Section Groups.
Context `{Python}.

(** [t in s] for two strings: [t] occurs in [s]. *)
Fixpoint py_substring (t s : string) : bool :=
  String.prefix t s
  || match s with
     | EmptyString => false
     | String _ s' => py_substring t s'
     end.

(** [x in container]: an item of a sequence that equals [x], a key of a
    dict, or a piece of a string; anything else cannot be searched. *)
Definition py_in (x container : pyval) : result bool :=
  match container with
  | PyTuple l => Return (existsb (fun item => py_eq item x) l)
  | PyObj o => Return (existsb (fun key => py_eq (PyStr key) x) (obj_keys o))
  | PyStr s =>
      match x with
      | PyStr t => Return (py_substring t s)
      | _ => Raise TypeError
      end
  | _ => Raise TypeError
  end.

(** [l.insert(i, x)] for an index within the list. *)
Definition list_insert_at {A} (i : nat) (x : A) (l : list A) : list A :=
  (take i l ++ x :: drop i l)%list.

(** [W3DGroup] stands for the class attributes of the group class, whose
    module is not among the sources; a group is an instance of it. *)
Variable W3DGroup : feature_class.

(** The [for] loop of [sort_groups] over the indices [range]: the group is
    inserted before the first of [new_groups] that names it among its
    groups, and the loop is left. *)
Fixpoint sort_groups_for (group : gmap string pyval)
    (new_groups : list (gmap string pyval)) (range : list nat)
    : result (list (gmap string pyval)) :=
  match range with
  | [] => Return new_groups
  | i :: range =>
      name ← W3DFeature_get W3DGroup group "name";
      member ←
        match new_groups !! i with
        | Some member => Return member
        | None => Raise IndexError
        end;
      groups ← W3DFeature_get W3DGroup member "groups";
      found ← py_in name groups;
      if found : bool
      then Return (list_insert_at i group new_groups)
      else sort_groups_for group new_groups range
  end.

(** The body of the [while] loop for the group popped. *)
Definition sort_groups_body (group : gmap string pyval)
    (new_groups : list (gmap string pyval))
    : result (list (gmap string pyval)) :=
  let cur_len := length new_groups in
  new_groups' ← sort_groups_for group new_groups (seq 0 cur_len);
  if Nat.eqb cur_len (length new_groups')
  then Return (new_groups' ++ [group])%list
  else Return new_groups'.

(** The [while] loop.  [pop()] takes the groups from the end of the list, so
    the loop runs over [popped], the list in reverse; with the result comes
    what is left to pop. *)
Fixpoint sort_groups_while (popped new_groups : list (gmap string pyval))
    : (result (list (gmap string pyval)) * list (gmap string pyval))%type :=
  match popped with
  | [] => (Return new_groups, [])
  | group :: popped =>
      match sort_groups_body group new_groups with
      | Return new_groups => sort_groups_while popped new_groups
      | Raise e => (Raise e, popped)
      end
  end.

(** [W3DProject.sort_groups(self)] on the list [groups] that the project
    holds: the list the method ends by assigning to the project's groups,
    or the exception, and what is left in the list it has popped from. *)
Definition sort_groups (groups : list (gmap string pyval))
    : (result (list (gmap string pyval)) * list (gmap string pyval))%type :=
  let (new_groups, popped) := sort_groups_while (reverse groups) [] in
  (new_groups, reverse popped).

(** The [for] loop by recursion on the groups placed so far: the list with
    the group put before its first container, if there is one. *)
Fixpoint before_container (group : gmap string pyval)
    (new_groups : list (gmap string pyval))
    : result (option (list (gmap string pyval))) :=
  match new_groups with
  | [] => Return None
  | member :: rest =>
      name ← W3DFeature_get W3DGroup group "name";
      groups ← W3DFeature_get W3DGroup member "groups";
      found ← py_in name groups;
      if found : bool
      then Return (Some (group :: member :: rest))
      else
        placed ← before_container group rest;
        Return (option_map (cons member) placed)
  end.

(** Group [a] is named among the groups of [b]. *)
Definition contained (a b : gmap string pyval) : Prop :=
  exists name groups,
    W3DFeature_get W3DGroup a "name" = Return name
    /\ W3DFeature_get W3DGroup b "groups" = Return groups
    /\ py_in name groups = Return true.

(** Group [a] has a name, [b] has groups, and they do not name it. *)
Definition not_contained (a b : gmap string pyval) : Prop :=
  exists name groups,
    W3DFeature_get W3DGroup a "name" = Return name
    /\ W3DFeature_get W3DGroup b "groups" = Return groups
    /\ py_in name groups = Return false.

End Groups.

Section Pretty.
Context `{Python}.

(** The line feed. *)
Definition LF : Ascii.ascii := Ascii.ascii_of_nat 10.

(** [s.split(LF)]: the pieces of [s] between line feeds, at least one. *)
Fixpoint split_lines (s : string) : list string :=
  match s with
  | EmptyString => [EmptyString]
  | String c s' =>
      if Ascii.eqb c LF then EmptyString :: split_lines s'
      else
        match split_lines s' with
        | line :: lines => String c line :: lines
        | [] => [String c EmptyString]
        end
  end.

(** [line.strip()] read as a condition: the line is not blank. *)
Definition not_blank (line : string) : bool :=
  py_truthy (PyStr (str_strip line)).

(** [W3DProject.toprettyxml(self)] from the text on that minidom has made
    of the project: the lines that are not blank, joined again. *)
Definition toprettyxml (xml_string : string) : string :=
  join (String LF EmptyString)
    (List.filter not_blank (split_lines xml_string)).

End Pretty.

(** *** Instances and documents to run these on *)

(** A Blender whose sounds are numbers, where opening a file puts the
    length of its name in front of [bpy.data.sounds]; a group class with a
    name and the names of the groups held; and some groups, actions and
    elements. *)
Module Studio.

#[local] Existing Instance Sample.python.
#[local] Existing Instance Sample.modules.

Definition blender : Blender := {|
  bpy := list Z;
  blender_sound := Z;
  sound_open := fun filename data =>
    (Return tt, Z.of_nat (String.length filename) :: data);
  data_sounds := fun data => data;
|}.

Definition group_class : feature_class := {|
  argument_validators :=
    list_to_map [("name", Sample.is_str); ("groups", fun _ => true)];
  default_arguments := ∅;
|}.

Definition group (name : string) (groups : list string)
    : gmap string pyval :=
  list_to_map [("name", PyStr name); ("groups", PyTuple (map PyStr groups))].

Definition inner : gmap string pyval := group "inner" [].
Definition outer : gmap string pyval := group "outer" ["inner"].
Definition other : gmap string pyval := group "other" [].
Definition nameless : gmap string pyval := {[ "groups" := PyTuple [] ]}.

(** The sound that opening hum.wav makes, the sounds kept after it, and a
    Blender without sounds. *)
Definition hum_sound : @blender_sound blender := 7.
Definition hum_kept : gmap string (@blender_sound blender) :=
  <["hum.wav" := hum_sound]> ∅.
Definition silence : @bpy blender := [].

(** An ObjectChange element without a Transition child. *)
Definition bare_change : node :=
  Node (PyStr "ObjectChange") {[ "name" := PyStr "Cube" ]} None [].

(** The Cube action with a duration, and what the parser's body reads from
    the element of scenario A. *)
Definition slow_cube : gmap string pyval :=
  <["duration" := PyInt 2]> cube.

Definition cube_read : gmap string pyval :=
  <["duration" := PyFloat (Sample.whole 1)]> cube.

(** A visible, red, doubled Cube whose link is enabled. *)
Definition painted : gmap string pyval :=
  list_to_map [
    ("object_name", PyStr "Cube"); ("visible", PyBool true);
    ("color", PyTuple [PyInt 1; PyInt 0; PyInt 0]); ("scale", PyInt 2);
    ("link_change", PyStr "Enable")].

(** What the parser reads from the element of the looping sound. *)
Definition forever_read : gmap string pyval :=
  <["repetitions" := PyInt (-1)]>
    (<["movement_mode" := PyStr "Positional"]>
       (<["filename" := PyStr "hum.wav"]>
          (<["name" := PyStr "hum"]> ∅))).

(** A Sound element whose number of repetitions is spelled out. *)
Definition spelled_repeat : node :=
  sound_document
    (list_to_map [("name", PyStr "hum"); ("filename", PyStr "hum.wav")])
    (PyStr "Positional") [Node (PyStr "RepeatNum") ∅ (Some "three") []] ∅.

(** Two lines with a blank one between them. *)
Definition spaced : string :=
  String "a" (String LF (String LF (String "b" EmptyString))).

End Studio.

(** Unfolds the steps of a serializer. *)
Ltac et_run :=
  cbv [mbind ET_bind mret ET_ret lift when SubElement set_text];
  cbn beta iota.

(** Reads the element of an ObjectAction. *)
Ltac read_object_document :=
  cbn [attrib find children List.find tag py_eq String.eqb Ascii.eqb
       Bool.eqb app text_value text mbind result_bind bind].

(** Membership and non-membership in a list of attribute names. *)
Ltac among := rewrite !elem_of_cons; auto 10.
Ltac not_among :=
  repeat (apply not_elem_of_cons; split; [done|]); apply not_elem_of_nil.

(** * Properties *)

(** ** The feature base class *)

Section FeatureLaws.
Context `{Python}.

Implicit Types (K : feature_class) (self : gmap string pyval).
Implicit Types (key n : string) (value v d : pyval).

Lemma get_stored K self n v :
  self !! n = Some v -> get K self n = Return v.
Proof. intros Hn. unfold get, getitem. by rewrite Hn. Qed.

Lemma get_default K self n d :
  self !! n = None -> default_arguments K !! n = Some d ->
  get K self n = Return d.
Proof. intros Hn Hd. unfold get, getitem, missing. by rewrite Hn, Hd. Qed.

Lemma get_missing K self n :
  self !! n = None -> default_arguments K !! n = None ->
  get K self n = Raise (KeyError n).
Proof. intros Hn Hd. unfold get, getitem, missing. by rewrite Hn, Hd. Qed.

Lemma contains_stored self n v : self !! n = Some v -> contains self n = true.
Proof. intros Hn. unfold contains. rewrite Hn. by apply bool_decide_eq_true. Qed.

Lemma contains_absent self n : self !! n = None -> contains self n = false.
Proof.
  intros Hn. unfold contains. rewrite Hn.
  apply bool_decide_eq_false. by intros [? ?].
Qed.

Lemma setitem_accepted K self n v validator :
  argument_validators K !! n = Some validator -> validator v = true ->
  setitem K self n v = Return (<[n := v]> self).
Proof. intros Hk Hv. unfold setitem. by rewrite Hk, Hv. Qed.

Lemma setitem_Return K self n v self' :
  setitem K self n v = Return self' ->
  self' = <[n := v]> self
  /\ exists validator,
       argument_validators K !! n = Some validator /\ validator v = true.
Proof.
  unfold setitem.
  destruct (argument_validators K !! n) as [validator|] eqn:Hk; [|done].
  destruct (validator v) eqn:Hv; [|done].
  intros [= <-]. eauto.
Qed.

Lemma setitem_with K self n v (validator : pyval -> bool) :
  argument_validators K !! n = Some validator ->
  setitem K self n v
  = if validator v then Return (<[n := v]> self)
    else Raise (InvalidArgument
                  (py_str v +:+ " is not a valid value for option " +:+ n)).
Proof. intros Hk. unfold setitem. by rewrite Hk. Qed.

Lemma setitem_lookup_eq K self n v self' :
  setitem K self n v = Return self' -> self' !! n = Some v.
Proof. intros [-> _]%setitem_Return. apply lookup_insert_eq. Qed.

Lemma setitem_lookup_ne K self n v self' key :
  setitem K self n v = Return self' -> key <> n -> self' !! key = self !! key.
Proof. intros [-> _]%setitem_Return Hne. by apply lookup_insert_ne. Qed.

Lemma bind_Return {A B} (r : result A) (k : A -> result B) b :
  r ≫= k = Return b -> exists a, r = Return a /\ k a = Return b.
Proof. destruct r as [a|e]; [eauto|done]. Qed.

Lemma alter_last {A} (f : A -> A) (l : list A) (x : A) :
  alter f (length l) (l ++ [x])%list = (l ++ [f x])%list.
Proof. induction l as [|y l IH]; simpl; [done|]. by f_equal. Qed.

(** Every write that succeeds keeps the instance valid, so every instance
    built by the constructor and by writes is. *)
Lemma setitem_valid K self n v self' :
  valid K self -> setitem K self n v = Return self' -> valid K self'.
Proof.
  intros Hvalid [-> (validator & Hk & Hv)]%setitem_Return key value.
  destruct (decide (n = key)) as [->|Hne].
  - rewrite lookup_insert_eq. intros [= <-]. by exists validator.
  - rewrite lookup_insert_ne by done. apply Hvalid.
Qed.

Lemma update_valid K other : forall self self',
  valid K self -> update K self other = Return self' -> valid K self'.
Proof.
  induction other as [|[key value] rest IH]; intros self self' Hvalid; simpl.
  - by intros [= <-].
  - destruct (setitem K self key value) as [self1|e] eqn:Hset; simpl; [|done].
    apply IH. by eapply setitem_valid.
Qed.

Lemma init_valid K args kwargs self :
  init K args kwargs = Return self -> valid K self.
Proof.
  unfold init.
  destruct (update K ∅ args) as [self0|e] eqn:Hargs; simpl; [|done].
  apply update_valid. eapply update_valid; [|exact Hargs].
  intros key value. by rewrite lookup_empty.
Qed.

(** C4.  Writing attribute [n] fails with InvalidArgument "not a valid
    option" when [n] is not in the schema, fails with InvalidArgument "not a
    valid value" when the validator of [n] rejects the value, and otherwise
    commits the write: reading [n] afterwards gives back exactly the value
    written. *)
Theorem setitem_then_getitem K self n v :
  match (argument_validators K !! n : option (pyval -> bool)) with
  | None =>
      setitem K self n v
      = Raise (InvalidArgument
                 (n +:+ " not a valid option for this Cave feature"))
  | Some validator =>
      if validator v
      then exists self',
             setitem K self n v = Return self'
             /\ getitem K self' n = (Return v, self')
      else setitem K self n v
           = Raise (InvalidArgument
                      (py_str v +:+ " is not a valid value for option " +:+ n))
  end.
Proof.
  unfold setitem.
  destruct (argument_validators K !! n) as [validator|]; [|done].
  destruct (validator v); [|done].
  eexists. split; [done|].
  unfold getitem. by rewrite lookup_insert_eq.
Qed.

(** C5.  [is_default n] holds exactly when [n] is absent from the storage
    and a default is declared for it; after a write of [n] that succeeds it
    is false, whatever the value written. *)
Theorem is_default_absent_and_declared K self n :
  (is_default K self n = true
   <-> self !! n = None /\ is_Some (default_arguments K !! n))
  /\ (forall v self',
        setitem K self n v = Return self' -> is_default K self' n = false).
Proof.
  split.
  - unfold is_default, contains.
    rewrite andb_true_iff, negb_true_iff, bool_decide_eq_false,
      bool_decide_eq_true, <- eq_None_not_Some.
    done.
  - intros v self' [-> _]%setitem_Return.
    unfold is_default. erewrite contains_stored; [done|].
    apply lookup_insert_eq.
Qed.

(** C6.  Reading [n] gives the stored value when there is one; otherwise the
    declared default, with the instance as it was; otherwise it fails with
    KeyError. *)
Theorem getitem_stored_default_missing K self n :
  match self !! n, default_arguments K !! n with
  | Some v, _ => getitem K self n = (Return v, self)
  | None, Some d => getitem K self n = (Return d, self) /\ self !! n = None
  | None, None => getitem K self n = (Raise (KeyError n), self)
  end.
Proof.
  unfold getitem, missing.
  destruct (self !! n) as [v|] eqn:Hn; [done|].
  by destruct (default_arguments K !! n).
Qed.

(** C10.  A write of "debug" on a project sets the level of the logger to
    DEBUG when the value is truthy and to WARNING otherwise, whether or not
    the write is then accepted; a write of any other attribute leaves the
    level as it was.  The write itself is that of the base class. *)
Theorem W3DProject_setitem_logger (W3DProject : feature_class)
    (LOGGER : logging_level) self key value :
  fst (W3DProject_setitem W3DProject LOGGER self key value)
  = W3DFeature_setitem W3DProject self key value
  /\ (key = "debug" ->
      snd (W3DProject_setitem W3DProject LOGGER self key value)
      = if py_truthy value then DEBUG else WARNING)
  /\ (key <> "debug" ->
      snd (W3DProject_setitem W3DProject LOGGER self key value) = LOGGER).
Proof.
  unfold W3DProject_setitem. simpl. split; [done|]. split.
  - intros ->. done.
  - intros Hne. by apply String.eqb_neq in Hne as ->.
Qed.

End FeatureLaws.

(** ** pycave/actions.py *)

Section ActionLaws.
Context `{Modules}.

Implicit Types (self : gmap string pyval) (st : list element).

Lemma ObjectAction_validates_object_name :
  argument_validators ObjectAction !! "object_name"
  = Some (AlwaysValid "Name of an object").
Proof. by vm_compute. Qed.

Lemma ObjectAction_validates_duration :
  argument_validators ObjectAction !! "duration"
  = Some (IsNumeric (Some 0%Q) None).
Proof. by vm_compute. Qed.

Lemma ObjectAction_validates_placement :
  argument_validators ObjectAction !! "placement"
  = Some (AlwaysValid "A CavePlacement object").
Proof. by vm_compute. Qed.

Lemma ObjectAction_default_duration :
  default_arguments ObjectAction !! "duration" = Some (PyInt 1).
Proof. by vm_compute. Qed.

Lemma ObjectAction_default_other n :
  n <> "duration" -> default_arguments ObjectAction !! n = None.
Proof. intros Hn. unfold ObjectAction. cbn. by rewrite lookup_singleton_ne. Qed.

Lemma ObjectAction_get_duration self :
  exists d, get ObjectAction self "duration" = Return d.
Proof.
  destruct (self !! "duration") as [d|] eqn:Hd.
  - exists d. by apply get_stored.
  - exists (PyInt 1).
    apply get_default; [done|apply ObjectAction_default_duration].
Qed.

(** What the body of [ObjectAction.fromXML] makes of the Movement and
    MoveRel children, whenever it returns an instance: move_relative is True
    when there is a MoveRel child, False and stored when there is a Movement
    child instead, and not stored when there is neither; and the child it
    went by has a Placement child. *)
Lemma ObjectAction_fromXML_body_move_relative action_root a :
  ObjectAction_fromXML_body action_root = Return a ->
  exists trans_root,
    find "Transition" action_root = Some trans_root
    /\ match find "MoveRel" trans_root, find "Movement" trans_root with
       | Some node, _ =>
           items a !! "move_relative" = Some (PyBool true)
           /\ is_Some (find "Placement" node)
       | None, Some node =>
           items a !! "move_relative" = Some (PyBool false)
           /\ is_Some (find "Placement" node)
       | None, None => items a !! "move_relative" = None
       end.
Proof.
  unfold ObjectAction_fromXML_body.
  intros (new1 & H1 & Hrest)%bind_Return.
  apply bind_Return in Hrest as (trans_root & Htrans & Hrest).
  destruct (find "Transition" action_root) as [t|]; [|done].
  injection Htrans as ->. exists trans_root. split; [done|].
  apply bind_Return in Hrest as (new2 & H2 & Hrest).
  apply bind_Return in Hrest as (new3 & H3 & Hrest).
  apply bind_Return in Hrest as ([node new4] & H4 & Hrest).
  apply bind_Return in Hrest as (new5 & H5 & Hrest).
  injection Hrest as <-. cbn [items].
  assert (new1 !! "move_relative" = None) as E1.
  { destruct (attrib action_root !! "name"); [|done].
    by rewrite (setitem_lookup_ne _ _ _ _ _ _ H1). }
  assert (new2 !! "move_relative" = None) as E2.
  { destruct (attrib trans_root !! "duration"); [|by injection H2 as <-].
    apply bind_Return in H2 as (d & _ & H2).
    by rewrite (setitem_lookup_ne _ _ _ _ _ _ H2). }
  assert (new3 !! "move_relative" = None) as E3.
  { destruct (find "Visible" trans_root); [|by injection H3 as <-].
    apply bind_Return in H3 as (d & _ & H3).
    by rewrite (setitem_lookup_ne _ _ _ _ _ _ H3). }
  destruct (find "MoveRel" trans_root) as [rel|].
  - apply bind_Return in H4 as (new4' & H4 & [= <- <-]).
    apply bind_Return in H5 as (new6 & H6 & H5).
    rewrite (setitem_lookup_eq _ _ _ _ _ H4) in H6. cbn in H6.
    destruct (find "Placement" rel) as [place_root|]; [|done].
    apply bind_Return in H5 as (placement & _ & H5).
    rewrite (setitem_lookup_ne _ _ _ _ _ _ H5) by done.
    rewrite (setitem_lookup_eq _ _ _ _ _ H6). eauto.
  - injection H4 as <- <-.
    destruct (find "Movement" trans_root) as [mov|].
    + apply bind_Return in H5 as (new6 & H6 & H5).
      rewrite E3 in H6. cbn in H6.
      destruct (find "Placement" mov) as [place_root|]; [|done].
      apply bind_Return in H5 as (placement & _ & H5).
      rewrite (setitem_lookup_ne _ _ _ _ _ _ H5) by done.
      rewrite (setitem_lookup_eq _ _ _ _ _ H6). eauto.
    + by injection H5 as <-.
Qed.

(** Every call of a parser of pycave/actions.py is a TypeError: each is a
    classmethod declared without a parameter for the class. *)
Lemma CaveAction_fromXML_TypeError action_root :
  CaveAction_fromXML action_root = Raise TypeError
  /\ ObjectAction_fromXML action_root = Raise TypeError.
Proof. done. Qed.

(** C3 (at a GroupRef element).  The dispatch raises TypeError, as its own
    body does on calling the parser of GroupAction; and the body of that
    parser raises NotImplementedError. *)
Theorem dispatch_GroupRef :
  CaveAction_fromXML groupref_document = Raise TypeError
  /\ CaveAction_fromXML_body groupref_document = Raise TypeError
  /\ GroupAction_fromXML_body groupref_document
     = Raise (NotImplementedError "fromXML not defined for this feature").
Proof. by vm_compute. Qed.

(** C7 (at a Movement element without Placement).  The parser raises
    TypeError; its body, run on the element, raises BadCaveXML. *)
Theorem parse_movement_without_placement :
  ObjectAction_fromXML movement_without_placement = Raise TypeError
  /\ ObjectAction_fromXML_body movement_without_placement
     = Raise (BadCaveXML
                "Movement or MoveRel node requires Placement child node").
Proof. by vm_compute. Qed.

(** The body of the parser, run on the element of scenario A, stores the
    duration it reads: it returns an Object-change action whose duration
    is the float of 1, equal to 1, and not a default. *)
Lemma cube_read_by_body (one : float) :
  float_of_Z 1 = Some one ->
  float_compare_Z one 1 = Some Eq ->
  IsNumeric (Some 0%Q) None (PyFloat one) = true ->
  exists a,
    ObjectAction_fromXML_body cube_document = Return a
    /\ class_of a = IsObjectAction
    /\ getitem ObjectAction (items a) "duration"
       = (Return (PyFloat one), items a)
    /\ py_eq (PyFloat one) (PyInt 1) = true
    /\ is_default ObjectAction (items a) "duration" = false.
Proof.
  intros Hone Heq Hvalid.
  exists {| class_of := IsObjectAction;
            items := <["duration" := PyFloat one]> cube |}.
  split.
  - unfold ObjectAction_fromXML_body. cbn.
    rewrite !lookup_singleton_eq.
    rewrite (setitem_with _ _ _ _ _ ObjectAction_validates_object_name).
    cbn. rewrite Hone. cbn.
    by rewrite (setitem_with _ _ _ _ _ ObjectAction_validates_duration),
      Hvalid.
  - split; [done|]. cbn [items]. split; [|split].
    + unfold getitem. by rewrite lookup_insert_eq.
    + cbn. by rewrite Heq.
    + unfold is_default. erewrite contains_stored; [done|].
      apply lookup_insert_eq.
Qed.

Lemma cube_constructed :
  init ObjectAction [] [("object_name", PyStr "Cube")] = Return cube.
Proof. by vm_compute. Qed.

Lemma cube_serialized :
  document (ObjectAction_toXML cube) = Return cube_document.
Proof. by vm_compute. Qed.

(** Whatever the body of the parser returns for the element of scenario A
    has a stored duration. *)
Lemma cube_read_duration_stored a :
  ObjectAction_fromXML cube_document = Return a
  \/ ObjectAction_fromXML_body cube_document = Return a ->
  is_default ObjectAction (items a) "duration" = false.
Proof.
  intros [Hcall|Hbody]; [done|].
  revert Hbody. unfold ObjectAction_fromXML_body. cbn.
  rewrite !lookup_singleton_eq.
  rewrite (setitem_with _ _ _ _ _ ObjectAction_validates_object_name).
  cbn. destruct (float_of_Z 1) as [one|]; [|done]. cbn.
  rewrite (setitem_with _ _ _ _ _ ObjectAction_validates_duration).
  destruct (IsNumeric (Some 0%Q) None (PyFloat one)); [|done].
  cbn. intros [= <-]. cbn [items].
  unfold is_default. erewrite contains_stored; [done|].
  apply lookup_insert_eq.
Qed.

(** C2 (at the Object-change action made with object_name "Cube" alone).
    The action has no duration of its own, so its duration is the default,
    the int 1.  It serializes to an ObjectChange element with the attribute
    name "Cube" and one child, a Transition element without children; the
    duration attribute of that child holds the int 1 itself, which is not
    the text "1".  The parser, called on the element, raises TypeError and
    yields no instance; whatever its body returns for the element has a
    stored duration, which is not a default. *)
Theorem scenario_A :
  init ObjectAction [] [("object_name", PyStr "Cube")] = Return cube
  /\ cube !! "duration" = None
  /\ get ObjectAction cube "duration" = Return (PyInt 1)
  /\ document (ObjectAction_toXML cube) = Return cube_document
  /\ tag cube_document = PyStr "ObjectChange"
  /\ attrib cube_document !! "name" = Some (PyStr "Cube")
  /\ (exists transition,
        children cube_document = [transition]
        /\ tag transition = PyStr "Transition"
        /\ children transition = []
        /\ attrib transition !! "duration" = Some (PyInt 1)
        /\ py_eq (PyInt 1) (PyStr "1") = false)
  /\ ObjectAction_fromXML cube_document = Raise TypeError
  /\ (forall a,
        ObjectAction_fromXML_body cube_document = Return a ->
        is_default ObjectAction (items a) "duration" = false).
Proof.
  split; [apply cube_constructed|]. split; [done|].
  split; [by vm_compute|]. split; [apply cube_serialized|].
  split; [done|]. split; [done|]. split.
  - exists (Node (PyStr "Transition") {[ "duration" := PyInt 1 ]} None []).
    repeat split; by vm_compute.
  - split; [done|]. intros a Hbody.
    apply cube_read_duration_stored. by right.
Qed.

Lemma ObjectAction_toXML_placement_alone self p parent_root st :
  self !! "placement" = Some p -> self !! "move_relative" = None ->
  exists e new,
    ObjectAction_toXML self parent_root st = (Raise e, (st ++ new)%list)
    /\ Forall not_movement new
    /\ (is_Some (self !! "object_name") -> e = KeyError "move_relative").
Proof.
  intros Hp Hmr. unfold ObjectAction_toXML.
  destruct (self !! "object_name") as [name|] eqn:Hname.
  2:{ rewrite (get_missing _ _ _ Hname)
        by (by apply ObjectAction_default_other).
      exists (KeyError "object_name"), []. cbn. rewrite app_nil_r.
      split; [done|]. split; [constructor|]. by intros [? ?]. }
  rewrite (get_stored _ _ _ _ Hname).
  destruct (ObjectAction_get_duration self) as [d ->].
  rewrite (contains_stored _ _ _ Hp).
  rewrite (get_missing _ _ _ Hmr) by (by apply ObjectAction_default_other).
  destruct (self !! "visible") as [vis|] eqn:Hvis.
  - rewrite (contains_stored _ _ _ Hvis), (get_stored _ _ _ _ Hvis).
    et_run. rewrite alter_last. cbn.
    eexists _, [_; _; _]. rewrite <- !app_assoc. cbn.
    split; [reflexivity|]. split; [|done]. repeat constructor.
  - rewrite (contains_absent _ _ Hvis).
    et_run.
    eexists _, [_; _]. rewrite <- !app_assoc. cbn.
    split; [reflexivity|]. split; [|done]. repeat constructor.
Qed.

(** C9.  On an Object-change action for which move_relative was never
    written, a write of placement succeeds; serializing the instance then
    fails, with KeyError for move_relative when object_name is there, and
    none of the elements it has created by then is a Movement or MoveRel
    element. *)
Theorem placement_without_move_relative self value parent_root st :
  self !! "move_relative" = None ->
  exists self',
    setitem ObjectAction self "placement" value = Return self'
    /\ exists e new,
         ObjectAction_toXML self' parent_root st = (Raise e, (st ++ new)%list)
         /\ Forall not_movement new
         /\ (is_Some (self !! "object_name") -> e = KeyError "move_relative").
Proof.
  intros Hmr. exists (<["placement" := value]> self). split.
  - by rewrite (setitem_with _ _ _ _ _ ObjectAction_validates_placement).
  - destruct (ObjectAction_toXML_placement_alone
                (<["placement" := value]> self) value parent_root st)
      as (e & new & Hrun & Hnew & He).
    + apply lookup_insert_eq.
    + by rewrite lookup_insert_ne.
    + exists e, new. split; [done|]. split; [done|].
      intros Hname. apply He. by rewrite lookup_insert_ne.
Qed.

End ActionLaws.

(** ** pyw3d/sounds.py *)

Section SoundLaws.
Context `{Modules}.

Implicit Types (self : gmap string pyval) (st : list element).

Lemma get_total K self n :
  is_Some (default_arguments K !! n) -> exists v, get K self n = Return v.
Proof.
  intros [d Hd]. destruct (self !! n) as [v|] eqn:Hn.
  - exists v. by apply get_stored.
  - exists d. by apply get_default.
Qed.

Lemma is_default_stored K self n v :
  self !! n = Some v -> is_default K self n = false.
Proof. intros Hn. unfold is_default. by rewrite (contains_stored _ _ _ Hn). Qed.

Lemma is_default_absent K self n :
  self !! n = None -> is_Some (default_arguments K !! n) ->
  is_default K self n = true.
Proof.
  intros Hn Hd. unfold is_default.
  by rewrite (contains_absent _ _ Hn), (bool_decide_eq_true_2 _ Hd).
Qed.

Lemma W3DSound_defaults n :
  n ∈ ["autostart"; "movement_mode"; "repetitions"; "frequency_scale";
       "volume_scale"; "pan"] ->
  is_Some (default_arguments W3DSound !! n).
Proof.
  rewrite !elem_of_cons, elem_of_nil.
  intros [->|[->|[->|[->|[->|[->|[]]]]]]]; vm_compute; eauto.
Qed.

Lemma sound_settings_step self key xml_attrib rest settings :
  is_Some (default_arguments W3DSound !! key) ->
  sound_settings self ((key, xml_attrib) :: rest) settings
  = sound_settings self rest (with_setting self key xml_attrib settings).
Proof.
  intros Hd. cbn [sound_settings].
  unfold W3DFeature_is_default, W3DFeature_get, with_setting.
  destruct (self !! key) as [v|] eqn:Hkey.
  - by rewrite (is_default_stored _ _ _ _ Hkey), (get_stored _ _ _ _ Hkey).
  - by rewrite (is_default_absent _ _ _ Hkey Hd).
Qed.

Lemma sound_settings_eq self :
  sound_settings self
    [("frequency_scale", "freq"); ("volume_scale", "volume"); ("pan", "pan")] ∅
  = Return (sound_settings_of self).
Proof.
  rewrite !sound_settings_step by (apply W3DSound_defaults; among).
  done.
Qed.

Lemma py_eq_int r x z :
  as_num r = Some x -> py_eq r (PyInt z) = is_cmp Eq (num_compare x (NumZ z)).
Proof. destruct r; cbn; intros [= <-]; done. Qed.

Lemma W3DSound_document self name filename repetitions x :
  self !! "name" = Some name -> self !! "filename" = Some filename ->
  get W3DSound self "repetitions" = Return repetitions ->
  as_num repetitions = Some x ->
  exists mode,
    get W3DSound self "movement_mode" = Return mode
    /\ document (W3DSound_toXML self)
       = Return (sound_document (sound_attrib self name filename) mode
                   (repeat_children (num_compare x (NumZ 0))
                      (py_str repetitions))
                   (sound_settings_of self)).
Proof.
  intros Hname Hfile Hrep Hnum.
  destruct (get_total W3DSound self "movement_mode") as [mode Hmode].
  { apply W3DSound_defaults. among. }
  exists mode. split; [done|].
  unfold document, W3DSound_toXML, W3DFeature_get, W3DFeature_is_default.
  rewrite (get_stored _ _ _ _ Hname), (get_stored _ _ _ _ Hfile), Hrep, Hmode.
  rewrite sound_settings_eq.
  unfold sound_attrib, sound_document.
  destruct (self !! "autostart") as [autostart|] eqn:Hauto.
  - rewrite (is_default_stored _ _ _ _ Hauto), (get_stored _ _ _ _ Hauto).
    et_run. unfold py_lt_int, py_gt_int.
    rewrite Hnum, (py_eq_int _ _ _ Hnum).
    by destruct (num_compare x (NumZ 0)) as [[]|].
  - rewrite (is_default_absent _ _ _ Hauto)
      by (apply W3DSound_defaults; among).
    et_run. unfold py_lt_int, py_gt_int.
    rewrite Hnum, (py_eq_int _ _ _ Hnum).
    by destruct (num_compare x (NumZ 0)) as [[]|].
Qed.

(** C8.  A Sound with a name and a file name serializes with a Repeat
    element whose children are decided by how its number of repetitions,
    stored or default, compares to 0: a RepeatForever marker without text
    when it is negative, a NoRepeat marker when it equals 0, and a RepeatNum
    element whose text is the number printed when it is positive. *)
Theorem sound_repeat_child self name filename repetitions x :
  self !! "name" = Some name -> self !! "filename" = Some filename ->
  get W3DSound self "repetitions" = Return repetitions ->
  as_num repetitions = Some x ->
  exists sound,
    document (W3DSound_toXML self) = Return sound
    /\ find "Repeat" sound
       = Some (Node (PyStr "Repeat") ∅ None
                 (repeat_children (num_compare x (NumZ 0))
                    (py_str repetitions))).
Proof.
  intros Hname Hfile Hrep Hnum.
  destruct (W3DSound_document _ _ _ _ _ Hname Hfile Hrep Hnum)
    as (mode & _ & ->).
  eexists. split; [done|]. done.
Qed.

(** The same for an int [z], read off the sign of [z]; the default is 0. *)
Lemma sound_repeat_child_int self name filename z :
  self !! "name" = Some name -> self !! "filename" = Some filename ->
  self !! "repetitions" = Some (PyInt z)
  \/ (self !! "repetitions" = None /\ z = 0) ->
  exists sound,
    document (W3DSound_toXML self) = Return sound
    /\ find "Repeat" sound
       = Some (Node (PyStr "Repeat") ∅ None
                 (if z <? 0 then [marker "RepeatForever"]
                  else if z =? 0 then [marker "NoRepeat"]
                  else [Node (PyStr "RepeatNum") ∅ (Some (pretty z)) []])).
Proof.
  intros Hname Hfile Hrep.
  assert (get W3DSound self "repetitions" = Return (PyInt z)) as Hget.
  { destruct Hrep as [Hrep|[Hrep ->]].
    - by apply get_stored.
    - apply get_default; [done|by vm_compute]. }
  destruct (W3DSound_document self name filename (PyInt z) (NumZ z))
    as (mode & _ & Hdoc); [done..|].
  eexists. split; [exact Hdoc|]. cbn.
  destruct (Z.compare_spec z 0) as [->|Hlt|Hgt]; cbn.
  - done.
  - by apply Z.ltb_lt in Hlt as ->.
  - assert ((z <? 0) = false) as -> by lia.
    assert ((z =? 0) = false) as -> by lia. done.
Qed.

Implicit Types (x y : gmap string pyval).

Lemma py_eq_str s v : py_eq (PyStr s) v = true -> v = PyStr s.
Proof.
  destruct v; cbn; try done. intros Heq. by apply String.eqb_eq in Heq as ->.
Qed.

Lemma py_eq_str_refl s : py_eq (PyStr s) (PyStr s) = true.
Proof. cbn. apply String.eqb_refl. Qed.

Lemma py_eq_int_refl z : py_eq (PyInt z) (PyInt z) = true.
Proof. cbn. by rewrite Z.compare_refl. Qed.

Lemma OptionListValidator_inv valid_options v :
  OptionListValidator valid_options v = true ->
  exists s, s ∈ valid_options /\ v = PyStr s.
Proof.
  unfold OptionListValidator. intros (s & Hin & Heq)%existsb_exists.
  exists s. split; [by apply list_elem_of_In|by apply py_eq_str].
Qed.

Lemma setitem_accepts K self key v :
  accepts K key v -> setitem K self key v = Return (<[key := v]> self).
Proof. intros (f & Hk & Hv). by rewrite (setitem_with _ _ _ _ _ Hk), Hv. Qed.

Lemma extends_insert x key y v' :
  (forall v, x !! key = Some v -> py_eq v' v = true) ->
  extends x key y (<[key := v']> y).
Proof.
  intros Heq. split.
  - intros k Hk. by rewrite lookup_insert_ne.
  - intros v Hv. exists v'. rewrite lookup_insert_eq. eauto.
Qed.

Lemma extends_skip x key y : x !! key = None -> extends x key y y.
Proof. intros Hx. split; [done|]. intros v. by rewrite Hx. Qed.

Lemma agrees_on_nil x y : agrees_on [] x y.
Proof. intros key Hin. by apply elem_of_nil in Hin. Qed.

Lemma agrees_on_extends keys x key y y' :
  agrees_on keys x y -> key ∉ keys -> extends x key y y' ->
  agrees_on (key :: keys) x y'.
Proof.
  intros Hon Hnew [Hother Hkey] k [->|Hin]%elem_of_cons v Hv.
  - by apply Hkey.
  - rewrite Hother; [by apply Hon|]. intros ->. done.
Qed.

Lemma W3DSound_schema_keys key (f : pyval -> bool) :
  argument_validators W3DSound !! key = Some f -> key ∈ sound_keys.
Proof.
  intros Hk. destruct (decide (key ∈ sound_keys)) as [|Hnot]; [done|].
  exfalso. revert Hk. unfold sound_keys in Hnot.
  rewrite !not_elem_of_cons in Hnot.
  destruct Hnot as (? & ? & ? & ? & ? & ? & ? & ? & _).
  unfold W3DSound. cbn.
  rewrite !lookup_insert_ne by done. by rewrite lookup_empty.
Qed.

Lemma agrees_on_sound_keys x y :
  valid W3DSound x -> agrees_on sound_keys x y -> agrees x y.
Proof.
  intros Hvalid Hon key v Hv. apply (Hon key); [|done].
  destruct (Hvalid key v Hv) as (f & Hk & _).
  by apply W3DSound_schema_keys in Hk.
Qed.

Lemma sound_attrib_name x name filename :
  sound_attrib x name filename !! "name" = Some (PyStr (py_str name)).
Proof.
  unfold sound_attrib. destruct (x !! "autostart"); by simplify_map_eq.
Qed.

Lemma sound_attrib_filename x name filename :
  sound_attrib x name filename !! "filename" = Some (PyStr (py_str filename)).
Proof.
  unfold sound_attrib. destruct (x !! "autostart"); by simplify_map_eq.
Qed.

Lemma sound_attrib_autostart x name filename :
  sound_attrib x name filename !! "autostart"
  = (fun v => PyStr (bool2text v)) <$> x !! "autostart".
Proof.
  unfold sound_attrib. destruct (x !! "autostart"); by simplify_map_eq.
Qed.

Lemma sound_settings_of_lookup x :
  sound_settings_of x !! "freq"
  = (fun v => PyStr (py_str v)) <$> x !! "frequency_scale"
  /\ sound_settings_of x !! "volume"
     = (fun v => PyStr (py_str v)) <$> x !! "volume_scale"
  /\ sound_settings_of x !! "pan"
     = (fun v => PyStr (py_str v)) <$> x !! "pan".
Proof.
  unfold sound_settings_of, with_setting.
  destruct (x !! "frequency_scale"), (x !! "volume_scale"), (x !! "pan");
    by simplify_map_eq.
Qed.

Lemma read_setting_step x settings y xml key rest :
  settings !! xml = (fun v => PyStr (py_str v)) <$> x !! key ->
  survives_in W3DSound x key (fun v => py_float (PyStr (py_str v))) ->
  exists y',
    sound_read_settings settings y ((xml, key) :: rest)
    = sound_read_settings settings y' rest
    /\ extends x key y y'.
Proof.
  intros Hs Hsurv. cbn [sound_read_settings]. rewrite Hs.
  unfold survives_in in Hsurv.
  destruct (x !! key) as [v|] eqn:Hkey; cbn [fmap option_fmap option_map].
  - destruct Hsurv as (v' & Hre & Heq & Hacc). cbn beta in Hre.
    rewrite Hre. cbn [mbind result_bind bind].
    unfold W3DFeature_setitem. rewrite (setitem_accepts _ _ _ _ Hacc).
    cbn [mbind result_bind bind].
    eexists. split; [done|]. apply extends_insert.
    intros v0. rewrite Hkey. by intros [= <-].
  - exists y. split; [done|]. by apply extends_skip.
Qed.


Lemma W3DSound_validates :
  argument_validators W3DSound !! "name" = Some ValidPyString
  /\ argument_validators W3DSound !! "filename" = Some ValidFile
  /\ argument_validators W3DSound !! "movement_mode"
     = Some (OptionValidator movement_modes).
Proof. by vm_compute. Qed.

Lemma sound_mode_eq movement_node y m :
  m ∈ movement_modes ->
  children movement_node = [Node (PyStr m) ∅ None []] ->
  sound_mode movement_node y movement_modes
  = Return (<["movement_mode" := PyStr m]> y).
Proof.
  intros Hm Hch.
  assert (accepts W3DSound "movement_mode" (PyStr m)) as Hacc.
  { eexists. split; [apply W3DSound_validates|].
    unfold movement_modes in Hm.
    rewrite !elem_of_cons, elem_of_nil in Hm.
    destruct Hm as [->|[->|[]]]; done. }
  unfold movement_modes in *. cbn [sound_mode]. unfold find. rewrite Hch.
  rewrite !elem_of_cons, elem_of_nil in Hm.
  unfold W3DFeature_setitem.
  destruct Hm as [->|[->|[]]]; cbn; by rewrite (setitem_accepts _ _ _ _ Hacc).
Qed.

Lemma read_autostart x (attrib : gmap string pyval) y :
  attrib !! "autostart" = (fun v => PyStr (bool2text v)) <$> x !! "autostart" ->
  survives_in W3DSound x "autostart"
    (fun b => text2bool (PyStr (bool2text b))) ->
  exists y',
    match attrib !! "autostart" with
    | Some autostart =>
        autostart ← text2bool autostart;
        W3DFeature_setitem W3DSound y "autostart" autostart
    | None => Return y
    end = Return y'
    /\ extends x "autostart" y y'.
Proof.
  intros Ha Hsurv. rewrite Ha. unfold survives_in in Hsurv.
  destruct (x !! "autostart") as [v|] eqn:Hkey;
    cbn [fmap option_fmap option_map].
  - destruct Hsurv as (v' & Hre & Heq & Hacc). cbn beta in Hre.
    rewrite Hre. cbn [mbind result_bind bind].
    unfold W3DFeature_setitem. rewrite (setitem_accepts _ _ _ _ Hacc).
    eexists. split; [done|]. apply extends_insert.
    intros v0. rewrite Hkey. by intros [= <-].
  - exists y. split; [done|]. by apply extends_skip.
Qed.

Lemma read_repeat x y z :
  -1 <= z ->
  (0 < z -> int_of_string (str_strip (pretty z)) = Some z) ->
  accepts W3DSound "repetitions" (PyInt z) ->
  (forall v, x !! "repetitions" = Some v -> v = PyInt z) ->
  let repeat_node :=
    Node (PyStr "Repeat") ∅ None
      (repeat_children (num_compare (NumZ z) (NumZ 0)) (py_str (PyInt z))) in
  exists y',
    match find "NoRepeat" repeat_node with
    | Some _ => W3DFeature_setitem W3DSound y "repetitions" (PyInt 0)
    | None =>
        match find "RepeatForever" repeat_node with
        | Some _ =>
            W3DFeature_setitem W3DSound y "repetitions" (PyInt (-1))
        | None =>
            let repeat_node := find "RepeatNum" repeat_node in
            match repeat_number repeat_node with
            | Raise AttributeError =>
                Raise (BadW3DXML
                         "Repeat node must contain child node specifying repetitions")
            | Raise e => Raise e
            | Return n =>
                W3DFeature_setitem W3DSound y "repetitions" n
            end
        end
    end = Return y'
    /\ extends x "repetitions" y y'.
Proof.
  intros Hz Hint Hacc Heq repeat_node. subst repeat_node.
  exists (<["repetitions" := PyInt z]> y). split.
  - unfold W3DFeature_setitem. cbn [num_compare py_str py_repr].
    destruct (Z.compare_spec z 0) as [->|Hlt|Hgt]; cbn.
    + by rewrite (setitem_accepts _ _ _ _ Hacc).
    + assert (z = -1) as -> by lia. by rewrite (setitem_accepts _ _ _ _ Hacc).
    + rewrite (Hint Hgt). by rewrite (setitem_accepts _ _ _ _ Hacc).
  - apply extends_insert. intros v ->%Heq. apply py_eq_int_refl.
Qed.

(** C1, as amended.  Take a valid Sound whose name and file name are text,
    whose number of repetitions, if set, is an int not below -1, and whose
    autostart, frequency_scale, volume_scale and pan, if set, come back equal
    and valid from the text they are written as.  Then it serializes, the
    parser returns an instance for the element, and that instance agrees
    with the Sound on every attribute explicitly set on it. *)
Theorem sound_round_trip x nm fn :
  valid W3DSound x ->
  x !! "name" = Some (PyStr nm) -> x !! "filename" = Some (PyStr fn) ->
  survives_in W3DSound x "autostart"
    (fun b => text2bool (PyStr (bool2text b))) ->
  match x !! "repetitions" with
  | Some r => repetitions_carried r
  | None => accepts W3DSound "repetitions" (PyInt 0)
  end ->
  survives_in W3DSound x "frequency_scale"
    (fun v => py_float (PyStr (py_str v))) ->
  survives_in W3DSound x "volume_scale"
    (fun v => py_float (PyStr (py_str v))) ->
  survives_in W3DSound x "pan" (fun v => py_float (PyStr (py_str v))) ->
  exists sound y,
    document (W3DSound_toXML x) = Return sound
    /\ W3DSound_fromXML sound = Return y
    /\ agrees x y.
Proof.
  intros Hvalid Hname Hfile Hauto Hrep Hfreq Hvol Hpan.
  (* the number of repetitions *)
  assert (exists z,
    get W3DSound x "repetitions" = Return (PyInt z)
    /\ -1 <= z
    /\ (0 < z -> int_of_string (str_strip (pretty z)) = Some z)
    /\ accepts W3DSound "repetitions" (PyInt z)
    /\ (forall v, x !! "repetitions" = Some v -> v = PyInt z))
    as (z & Hget & Hz & Hint & Hzacc & Hzeq).
  { destruct (x !! "repetitions") as [r|] eqn:Hr.
    - destruct Hrep as (z & -> & Hz & Hint). exists z.
      split; [by apply get_stored|]. split; [done|]. split; [done|].
      split; [by apply (Hvalid "repetitions")|]. by intros v [= <-].
    - exists 0. split; [apply get_default; [done|by vm_compute]|].
      split; [done|]. split; [lia|]. split; [done|]. done. }
  destruct (W3DSound_document x _ _ _ (NumZ z) Hname Hfile Hget eq_refl)
    as (mode & Hmode & Hdoc).
  (* the mode *)
  assert (exists m, mode = PyStr m /\ m ∈ movement_modes
            /\ (forall v, x !! "movement_mode" = Some v -> v = PyStr m))
    as (m & -> & Hm & Hmeq).
  { destruct (x !! "movement_mode") as [v|] eqn:Hv.
    - rewrite (get_stored _ _ _ _ Hv) in Hmode. injection Hmode as <-.
      destruct (Hvalid _ _ Hv) as (f & Hf & Hacc).
      destruct W3DSound_validates as (_ & _ & Hmm).
      rewrite Hmm in Hf. injection Hf as <-.
      apply OptionListValidator_inv in Hacc as (m & Hm & ->).
      exists m. split; [done|]. split; [done|]. by intros v [= <-].
    - rewrite (get_default _ _ _ (PyStr "Positional") Hv) in Hmode
        by (by vm_compute).
      injection Hmode as <-. exists "Positional".
      split; [done|]. split; [unfold movement_modes; among|done]. }
  set (A := sound_attrib x (PyStr nm) (PyStr fn)) in *.
  set (y1 := <["name" := PyStr nm]> (∅ : gmap string pyval)).
  set (y2 := <["filename" := PyStr fn]> y1).
  destruct (read_autostart x A y2 (sound_attrib_autostart _ _ _) Hauto)
    as (y3 & R3 & E3).
  set (y4 := <["movement_mode" := PyStr m]> y3).
  destruct (read_repeat x y4 z Hz Hint Hzacc Hzeq) as (y5 & R5 & E5).
  destruct (sound_settings_of_lookup x) as (Sfreq & Svol & Span).
  destruct (read_setting_step x (sound_settings_of x) y5 "freq"
              "frequency_scale"
              [("volume", "volume_scale"); ("pan", "pan")] Sfreq Hfreq)
    as (y6 & R6 & E6).
  destruct (read_setting_step x (sound_settings_of x) y6 "volume"
              "volume_scale" [("pan", "pan")] Svol Hvol)
    as (y7 & R7 & E7).
  destruct (read_setting_step x (sound_settings_of x) y7 "pan" "pan" []
              Span Hpan)
    as (y8 & R8 & E8).
  exists (sound_document A (PyStr m)
            (repeat_children (num_compare (NumZ z) (NumZ 0))
               (py_str (PyInt z)))
            (sound_settings_of x)), y8.
  split; [exact Hdoc|]. split.
  - unfold W3DSound_fromXML, classmethod_call. cbn [Nat.eqb].
    unfold W3DSound_fromXML_body, sound_document.
    cbn [attrib find children List.find tag py_eq String.eqb Ascii.eqb
         Bool.eqb].
    subst A. rewrite sound_attrib_name, sound_attrib_filename.
    change (py_str (PyStr nm)) with nm. change (py_str (PyStr fn)) with fn.
    unfold W3DFeature_setitem in *.
    rewrite (setitem_accepts W3DSound ∅ "name" (PyStr nm))
      by (by apply (Hvalid "name")).
    cbn [mbind result_bind bind].
    rewrite (setitem_accepts W3DSound _ "filename" (PyStr fn))
      by (by apply (Hvalid "filename")).
    cbn [mbind result_bind bind].
    fold y1 y2. rewrite R3. cbn [mbind result_bind bind].
    rewrite (sound_mode_eq (Node (PyStr "Mode") ∅ None [Node (PyStr m) ∅ None []])
               y3 m Hm eq_refl).
    cbn [mbind result_bind bind].
    fold y4.
    rewrite (contains_stored y4 "movement_mode" (PyStr m))
      by apply lookup_insert_eq.
    cbn [negb mbind result_bind bind].
    cbv zeta in R5. rewrite R5. cbn [mbind result_bind bind attrib].
    rewrite R6, R7, R8. done.
  - apply agrees_on_sound_keys; [done|]. unfold sound_keys.
    apply (agrees_on_extends _ _ _ y7); [|not_among|done].
    apply (agrees_on_extends _ _ _ y6); [|not_among|done].
    apply (agrees_on_extends _ _ _ y5); [|not_among|done].
    apply (agrees_on_extends _ _ _ y4); [|not_among|done].
    apply (agrees_on_extends _ _ _ y3); [|not_among|].
    2:{ apply extends_insert. intros v ->%Hmeq. apply py_eq_str_refl. }
    apply (agrees_on_extends _ _ _ y2); [|not_among|done].
    apply (agrees_on_extends _ _ _ y1); [|not_among|].
    2:{ apply extends_insert. intros v. rewrite Hfile. intros [= <-].
        apply py_eq_str_refl. }
    apply (agrees_on_extends _ _ _ ∅); [|not_among|].
    2:{ apply extends_insert. intros v. rewrite Hname. intros [= <-].
        apply py_eq_str_refl. }
    apply agrees_on_nil.
Qed.
Lemma looping_sound_document :
  document (W3DSound_toXML looping_sound) = Return looping_document.
Proof. by vm_compute. Qed.

Lemma looping_sound_read y :
  W3DSound_fromXML looping_document = Return y ->
  y !! "repetitions" = Some (PyInt (-1)).
Proof.
  unfold W3DSound_fromXML, classmethod_call. cbn [Nat.eqb].
  unfold W3DSound_fromXML_body, looping_document, sound_document.
  intros (y1 & _ & Hrest)%bind_Return.
  apply bind_Return in Hrest as (y2 & _ & Hrest).
  apply bind_Return in Hrest as (y3 & _ & Hrest).
  apply bind_Return in Hrest as (movement_node & _ & Hrest).
  apply bind_Return in Hrest as (y4 & _ & Hrest).
  apply bind_Return in Hrest as ([] & _ & Hrest).
  apply bind_Return in Hrest as (repeat_node & Hnode & Hrest).
  apply bind_Return in Hrest as (y5 & H5 & Hrest).
  apply bind_Return in Hrest as (settings_node & Hsettings & Hrest).
  apply bind_Return in Hrest as (y6 & H6 & [= <-]).
  cbn in Hnode, Hsettings. injection Hnode as <-. injection Hsettings as <-.
  cbn in H5, H6. rewrite !lookup_empty in H6. injection H6 as <-.
  by apply setitem_lookup_eq in H5.
Qed.

Lemma looping_sound_disagrees y :
  W3DSound_fromXML looping_document = Return y -> ~ agrees looping_sound y.
Proof.
  intros Hy%looping_sound_read Hagree.
  destruct (Hagree "repetitions" (PyInt (-5))) as (v & Hv & Heq);
    [by vm_compute|].
  rewrite Hy in Hv. injection Hv as <-. done.
Qed.
End SoundLaws.

(** ** The scenarios, run *)

Section Runs.

#[local] Existing Instance Sample.python.
#[local] Existing Instance Sample.modules.

(** C1 fails at the Sound constructed with name "hum", filename "hum.wav" and
    repetitions -5: it serializes with a RepeatForever marker, and whatever
    the parser returns for that has repetitions -1. *)
Lemma looping_sound_round_trip_fails :
  init W3DSound []
    [("name", PyStr "hum"); ("filename", PyStr "hum.wav");
     ("repetitions", PyInt (-5))]
  = Return looping_sound
  /\ ~ exists (P : Python) (M : @Modules P) sound y,
        @document P (W3DSound_toXML looping_sound) = Return sound
        /\ W3DSound_fromXML sound = Return y
        /\ agrees looping_sound y.
Proof.
  split; [reflexivity|].
  intros (P & M & sound & y & Hdoc & Hread & Hagree).
  rewrite looping_sound_document in Hdoc. injection Hdoc as <-.
  by apply looping_sound_disagrees in Hread.
Qed.

(** No instance parsed back from the serialization of the Object-change
    action constructed with object_name "Cube" alone, by the parser or by
    its body, has a default duration. *)
Lemma cube_parsed_duration_is_stored :
  init ObjectAction [] [("object_name", PyStr "Cube")] = Return cube
  /\ ~ exists (P : Python) (M : @Modules P) n a,
        @document P (ObjectAction_toXML cube) = Return n
        /\ (ObjectAction_fromXML n = Return a
            \/ ObjectAction_fromXML_body n = Return a)
        /\ is_default ObjectAction (items a) "duration" = true.
Proof.
  split; [reflexivity|].
  intros (P & M & n & a & Hdoc & Hparse & Hdefault).
  rewrite cube_serialized in Hdoc. injection Hdoc as <-.
  by rewrite (cube_read_duration_stored a Hparse) in Hdefault.
Qed.

(** At the sample reading, where the float of 1 is the whole float 1, the
    body of the parser returns an action for the element of scenario A. *)
Lemma cube_read_by_body_sample :
  exists a,
    ObjectAction_fromXML_body cube_document = Return a
    /\ class_of a = IsObjectAction
    /\ getitem ObjectAction (items a) "duration"
       = (Return (PyFloat (Sample.whole 1)), items a)
    /\ py_eq (PyFloat (Sample.whole 1)) (PyInt 1) = true
    /\ is_default ObjectAction (items a) "duration" = false.
Proof. apply (cube_read_by_body (Sample.whole 1)); reflexivity. Qed.

(** After a write of the default value 1, duration is not a default. *)
Lemma is_default_absent_and_declared_witness :
  is_default ObjectAction (<["duration" := PyInt 1]> cube) "duration" = false.
Proof.
  apply (proj2 (is_default_absent_and_declared ObjectAction cube "duration")
           (PyInt 1)).
  reflexivity.
Defined.

(** A rejected write of debug turns the logger to DEBUG all the same; a
    write of far_clip leaves it alone. *)
Lemma W3DProject_setitem_logger_witness :
  W3DProject_setitem Sample.project NOTSET ∅ "debug" (PyInt 5)
  = (Raise (InvalidArgument "5 is not a valid value for option debug"), DEBUG)
  /\ snd (W3DProject_setitem Sample.project DEBUG ∅ "far_clip" (PyInt 5))
     = DEBUG.
Proof.
  destruct (W3DProject_setitem_logger Sample.project NOTSET ∅ "debug"
              (PyInt 5)) as (Hfst & Hdebug & _).
  destruct (W3DProject_setitem_logger Sample.project DEBUG ∅ "far_clip"
              (PyInt 5)) as (_ & _ & Hother).
  split.
  - apply injective_projections; [by rewrite Hfst|by rewrite Hdebug].
  - by apply Hother.
Defined.

(** With -1 repetitions the Repeat element holds a RepeatForever marker. *)
Lemma sound_repeat_child_witness :
  exists sound,
    document (W3DSound_toXML forever_sound) = Return sound
    /\ find "Repeat" sound
       = Some (Node (PyStr "Repeat") ∅ None [marker "RepeatForever"]).
Proof.
  apply (sound_repeat_child forever_sound (PyStr "hum") (PyStr "hum.wav")
           (PyInt (-1)) (NumZ (-1))); reflexivity.
Defined.

(** The Cube action given placement number 7 and no move_relative. *)
Lemma placement_without_move_relative_witness :
  exists self',
    setitem ObjectAction cube "placement" (PyObj (Sample.numbered 7)) = Return self'
    /\ exists e new,
         ObjectAction_toXML self' Parent [] = (Raise e, ([] ++ new)%list)
         /\ Forall not_movement new
         /\ (is_Some (cube !! "object_name") -> e = KeyError "move_relative").
Proof.
  apply (placement_without_move_relative cube (PyObj (Sample.numbered 7)) Parent []).
  reflexivity.
Defined.

(** The round trip of a sound with every attribute set. *)
Lemma sound_round_trip_witness :
  exists sound y,
    document (W3DSound_toXML Sample.full_sound) = Return sound
    /\ W3DSound_fromXML sound = Return y
    /\ agrees Sample.full_sound y.
Proof.
  apply (sound_round_trip Sample.full_sound "hum" "hum.wav").
  - apply (init_valid W3DSound []
             [("name", PyStr "hum"); ("filename", PyStr "hum.wav");
              ("autostart", PyBool true); ("movement_mode", PyStr "Fixed");
              ("repetitions", PyInt 3);
              ("frequency_scale", PyFloat (Sample.whole 2));
              ("volume_scale", PyInt 1);
              ("pan", PyFloat (Sample.whole (-1)))]).
    reflexivity.
  - reflexivity.
  - reflexivity.
  - exists (PyBool true). split; [reflexivity|]. split; [reflexivity|].
    exists Sample.is_bool. split; reflexivity.
  - exists 3. split; [reflexivity|]. split; [lia|]. intros _. reflexivity.
  - exists (PyFloat (Sample.whole 2)).
    split; [reflexivity|]. split; [reflexivity|].
    eexists. split; reflexivity.
  - exists (PyFloat (Sample.whole 1)).
    split; [reflexivity|]. split; [reflexivity|].
    eexists. split; reflexivity.
  - exists (PyFloat (Sample.whole (-1))).
    split; [reflexivity|]. split; [reflexivity|].
    eexists. split; reflexivity.
Defined.

(** With 3 repetitions the Repeat element holds a RepeatNum element with
    the text 3, and with none set a NoRepeat marker. *)
Lemma sound_repeat_child_thrice :
  exists sound,
    document (W3DSound_toXML thrice_sound) = Return sound
    /\ find "Repeat" sound
       = Some (Node (PyStr "Repeat") ∅ None
                 [Node (PyStr "RepeatNum") ∅ (Some "3") []]).
Proof.
  apply (sound_repeat_child_int thrice_sound (PyStr "hum") (PyStr "hum.wav") 3);
    [reflexivity..|left; reflexivity].
Qed.

Lemma sound_repeat_child_default :
  exists sound,
    document (W3DSound_toXML plain_sound) = Return sound
    /\ find "Repeat" sound
       = Some (Node (PyStr "Repeat") ∅ None [marker "NoRepeat"]).
Proof.
  apply (sound_repeat_child_int plain_sound (PyStr "hum") (PyStr "hum.wav") 0);
    [reflexivity..|right; split; reflexivity].
Qed.

End Runs.

(** * Further properties *)

(** ** pycave/features.py *)

Section MoreFeatureLaws.
Context `{Python}.

Implicit Types (K : feature_class) (self : gmap string pyval).
Implicit Types (key n : string) (value v d : pyval).
Implicit Types (other args kwargs : list (string * pyval)).

Lemma update_app K other1 other2 self :
  update K self (other1 ++ other2)%list
  = bind (update K self other1) (fun self1 => update K self1 other2).
Proof.
  revert self. induction other1 as [|[key value] rest IH]; intros self; cbn.
  - done.
  - destruct (setitem K self key value) as [self1|e]; cbn; [apply IH|done].
Qed.

Lemma update_lookup_other K other : forall self self' key,
  update K self other = Return self' -> key ∉ other.*1 ->
  self' !! key = self !! key.
Proof.
  induction other as [|[k v] rest IH]; intros self self' key; cbn.
  - by intros [= <-].
  - intros (self1 & Hset & Hrest)%bind_Return [Hne Hnot]%not_elem_of_cons.
    rewrite (IH _ _ _ Hrest Hnot).
    by apply (setitem_lookup_ne _ _ _ _ _ _ Hset).
Qed.

Lemma update_is_Some K other : forall self self' key,
  update K self other = Return self' ->
  is_Some (self' !! key) <-> is_Some (self !! key) \/ key ∈ other.*1.
Proof.
  induction other as [|[k v] rest IH]; intros self self' key; cbn.
  - intros [= <-]. rewrite elem_of_nil. tauto.
  - intros (self1 & Hset & Hrest)%bind_Return.
    rewrite (IH _ _ _ Hrest), elem_of_cons.
    apply setitem_Return in Hset as [-> _].
    destruct (decide (key = k)) as [->|Hne].
    + rewrite lookup_insert_eq. split; [auto|]. intros _. left. eauto.
    + rewrite lookup_insert_ne by done. tauto.
Qed.

(** X1.  After an update that succeeds, each attribute named in the pairs
    holds the value of the last pair that names it, and every other
    attribute is as it was. *)
Theorem update_last_write_wins K other self self' :
  update K self other = Return self' ->
  (forall before key value after,
     other = (before ++ (key, value) :: after)%list -> key ∉ after.*1 ->
     self' !! key = Some value)
  /\ (forall key, key ∉ other.*1 -> self' !! key = self !! key).
Proof.
  intros Hupd. split.
  - intros before key value after -> Hnot.
    rewrite update_app in Hupd.
    apply bind_Return in Hupd as (self1 & _ & Hupd). cbn in Hupd.
    apply bind_Return in Hupd as (self2 & Hset & Hupd).
    rewrite (update_lookup_other _ _ _ _ _ Hupd Hnot).
    by apply (setitem_lookup_eq _ _ _ _ _ Hset).
  - intros key Hnot. by apply (update_lookup_other K other).
Qed.

(** X2.  An update run on an instance that stays in use stops at the first
    pair that is rejected, with the exception of that write: the pairs
    before it are written, those after it are not.  When no pair is
    rejected it ends as the update of the constructor does. *)
Theorem update_in_place_first_rejected K other self :
  fst (update_in_place K self other)
  = bind (update K self other) (fun _ => Return tt)
  /\ (forall self', update K self other = Return self' ->
        snd (update_in_place K self other) = self')
  /\ (forall accepted key value rest self1 e,
        other = (accepted ++ (key, value) :: rest)%list ->
        update K self accepted = Return self1 ->
        setitem K self1 key value = Raise e ->
        update_in_place K self other = (Raise e, self1)).
Proof.
  split; [|split].
  - revert self. induction other as [|[k v] rest IH]; intros self; cbn.
    + done.
    + destruct (setitem K self k v) as [self1|e]; cbn; [apply IH|done].
  - revert self. induction other as [|[k v] rest IH]; intros self self'; cbn.
    + by intros [= <-].
    + destruct (setitem K self k v) as [self1|e]; cbn; [apply IH|done].
  - intros accepted key value rest self1 e -> Hacc Hset.
    revert self Hacc.
    induction accepted as [|[k v] acc IH]; intros self; cbn.
    + intros [= <-]. by rewrite Hset.
    + destruct (setitem K self k v) as [self0|e0]; cbn; [apply IH|done].
Qed.

(** X3.  An instance the constructor returns is valid, stores exactly the
    attributes named in its arguments, and none of them is a default. *)
Theorem init_keeps_schema K args kwargs self :
  init K args kwargs = Return self ->
  valid K self
  /\ (forall key,
        is_Some (self !! key) <-> key ∈ (args ++ kwargs)%list.*1)
  /\ (forall key, key ∈ (args ++ kwargs)%list.*1 -> is_default K self key = false).
Proof.
  intros Hinit.
  assert (forall key, is_Some (self !! key) <-> key ∈ (args ++ kwargs)%list.*1)
    as Hdom.
  { intros key. unfold init in Hinit.
    apply bind_Return in Hinit as (self0 & Hargs & Hkw).
    rewrite (update_is_Some _ _ _ _ key Hkw),
      (update_is_Some _ _ _ _ key Hargs).
    rewrite lookup_empty, fmap_app, elem_of_app.
    split; [intros [[[? [=]]|?]|?]; auto|tauto]. }
  split; [by eapply init_valid|]. split; [done|].
  intros key [value Hkey]%Hdom. unfold is_default.
  by rewrite (contains_stored _ _ _ Hkey).
Qed.

(** X4.  A write that succeeds changes the attribute written and no other:
    what a read of another attribute gives, whether the instance holds it
    and whether it is a default are as before. *)
Theorem setitem_changes_one_attribute K self n v self' key :
  setitem K self n v = Return self' -> key <> n ->
  getitem K self' key = (fst (getitem K self key), self')
  /\ contains self' key = contains self key
  /\ is_default K self' key = is_default K self key.
Proof.
  intros Hset Hne.
  pose proof (setitem_lookup_ne _ _ _ _ _ _ Hset Hne) as Hkey.
  unfold is_default, contains, getitem, missing. rewrite Hkey.
  split; [|done].
  destruct (self !! key); [done|]. by destruct (default_arguments K !! key).
Qed.

End MoreFeatureLaws.

(** ** pycave/actions.py *)

Section MoreActionLaws.
Context `{Modules}.
Implicit Types (self : gmap string pyval).

Lemma GroupAction_no_choose_random :
  (argument_validators GroupAction !! "choose_random" : option (pyval -> bool)) = None.
Proof. by vm_compute. Qed.

(** X5.  choose_random of a GroupAction has a default and no validator: a
    write of it is always rejected, and on a valid instance a read gives
    False, the default. *)
Theorem GroupAction_choose_random self :
  (forall value,
     setitem GroupAction self "choose_random" value
     = Raise (InvalidArgument
                "choose_random not a valid option for this Cave feature"))
  /\ (valid GroupAction self ->
      getitem GroupAction self "choose_random" = (Return (PyBool false), self)
      /\ is_default GroupAction self "choose_random" = true).
Proof.
  split.
  - intros value. unfold setitem. by rewrite GroupAction_no_choose_random.
  - intros Hvalid.
    assert (self !! "choose_random" = None) as Hnone.
    { destruct (self !! "choose_random") as [v|] eqn:Hv; [|done].
      destruct (Hvalid _ _ Hv) as (f & Hf & _).
      by rewrite GroupAction_no_choose_random in Hf. }
    unfold getitem, missing, is_default. rewrite Hnone.
    rewrite (contains_absent _ _ Hnone). split; by vm_compute.
Qed.

(** X6.  A CaveResetAction holds nothing: every write is rejected, the
    constructor takes no attribute, and every read of the instance is a
    KeyError. *)
Theorem CaveResetAction_holds_nothing :
  (forall self key value,
     setitem CaveResetAction self key value
     = Raise (InvalidArgument
                (key +:+ " not a valid option for this Cave feature")))
  /\ (forall args kwargs self,
        init CaveResetAction args kwargs = Return self ->
        args = [] /\ kwargs = [] /\ self = ∅)
  /\ (forall key,
        getitem CaveResetAction ∅ key = (Raise (KeyError key), ∅)).
Proof.
  assert (forall self key value,
     setitem CaveResetAction self key value
     = Raise (InvalidArgument
                (key +:+ " not a valid option for this Cave feature")))
    as Hset.
  { intros self key value. unfold setitem. cbn. by rewrite lookup_empty. }
  split; [done|]. split.
  - intros args kwargs self. unfold init.
    destruct args as [|[k v] args]; cbn.
    + destruct kwargs as [|[k v] kwargs]; cbn.
      * by intros [= <-].
      * by rewrite Hset.
    + by rewrite Hset.
  - intros key. unfold getitem, missing. cbn. by rewrite !lookup_empty.
Qed.

Lemma holds_only_empty keys : holds_only keys ∅.
Proof. intros key [v Hv]. by rewrite lookup_empty in Hv. Qed.

Lemma holds_only_setitem keys K self n v self' :
  holds_only keys self -> n ∈ keys -> setitem K self n v = Return self' ->
  holds_only keys self'.
Proof.
  intros Honly Hn [-> _]%setitem_Return key.
  destruct (decide (key = n)) as [->|Hne]; [done|].
  rewrite lookup_insert_ne by done. apply Honly.
Qed.

Lemma valid_empty K : valid K ∅.
Proof. intros key value. by rewrite lookup_empty. Qed.

(** X8.  Whenever the body of [ObjectAction.fromXML] returns, the instance
    is a valid ObjectAction whose object_name is the name attribute of the
    element, which holds nothing but object_name, duration, visible,
    move_relative and placement, and which has a placement exactly when it
    has move_relative. *)
Theorem ObjectAction_fromXML_body_Return action_root a :
  ObjectAction_fromXML_body action_root = Return a ->
  class_of a = IsObjectAction
  /\ valid ObjectAction (items a)
  /\ is_Some (attrib action_root !! "name")
  /\ items a !! "object_name" = attrib action_root !! "name"
  /\ holds_only ["object_name"; "duration"; "visible"; "move_relative";
                 "placement"] (items a)
  /\ (is_Some (items a !! "placement")
      <-> is_Some (items a !! "move_relative")).
Proof.
  unfold ObjectAction_fromXML_body.
  set (keys := ["object_name"; "duration"; "visible"; "move_relative";
                "placement"]).
  intros (new1 & H1 & Hrest)%bind_Return.
  apply bind_Return in Hrest as (trans_root & Htrans & Hrest).
  apply bind_Return in Hrest as (new2 & H2 & Hrest).
  apply bind_Return in Hrest as (new3 & H3 & Hrest).
  apply bind_Return in Hrest as ([node new4] & H4 & Hrest).
  apply bind_Return in Hrest as (new5 & H5 & Hrest).
  injection Hrest as <-. cbn [items class_of].
  (* the name *)
  destruct (attrib action_root !! "name") as [name|] eqn:Hname; [|done].
  assert (valid ObjectAction new1 /\ holds_only keys new1
          /\ new1 !! "object_name" = Some name
          /\ new1 !! "placement" = None /\ new1 !! "move_relative" = None)
    as (V1 & O1 & N1 & P1 & M1).
  { split; [by eapply setitem_valid; [apply valid_empty|]|].
    split; [eapply holds_only_setitem; [apply holds_only_empty| |done]|].
    { subst keys. among. }
    split; [by apply setitem_lookup_eq in H1|].
    by rewrite !(setitem_lookup_ne _ _ _ _ _ _ H1). }
  (* the duration *)
  assert (valid ObjectAction new2 /\ holds_only keys new2
          /\ new2 !! "object_name" = Some name
          /\ new2 !! "placement" = None /\ new2 !! "move_relative" = None)
    as (V2 & O2 & N2 & P2 & M2).
  { destruct (attrib trans_root !! "duration"); [|by injection H2 as <-].
    apply bind_Return in H2 as (d & _ & H2).
    split; [by eapply setitem_valid|].
    split; [eapply holds_only_setitem; [done| |done]|].
    { subst keys. among. }
    by rewrite !(setitem_lookup_ne _ _ _ _ _ _ H2). }
  (* the visibility *)
  assert (valid ObjectAction new3 /\ holds_only keys new3
          /\ new3 !! "object_name" = Some name
          /\ new3 !! "placement" = None /\ new3 !! "move_relative" = None)
    as (V3 & O3 & N3 & P3 & M3).
  { destruct (find "Visible" trans_root); [|by injection H3 as <-].
    apply bind_Return in H3 as (d & _ & H3).
    split; [by eapply setitem_valid|].
    split; [eapply holds_only_setitem; [done| |done]|].
    { subst keys. among. }
    by rewrite !(setitem_lookup_ne _ _ _ _ _ _ H3). }
  (* the movement *)
  assert (valid ObjectAction new4 /\ holds_only keys new4
          /\ new4 !! "object_name" = Some name
          /\ new4 !! "placement" = None
          /\ (node = None -> new4 !! "move_relative" = None))
    as (V4 & O4 & N4 & P4 & M4).
  { destruct (find "MoveRel" trans_root) as [rel|].
    - apply bind_Return in H4 as (new4' & H4 & [= <- <-]).
      split; [by eapply setitem_valid|].
      split; [eapply holds_only_setitem; [done| |done]|].
      { subst keys. among. }
      split; [by rewrite (setitem_lookup_ne _ _ _ _ _ _ H4)|].
      split; [by rewrite (setitem_lookup_ne _ _ _ _ _ _ H4)|done].
    - by injection H4 as <- <-. }
  split; [done|].
  destruct node as [node|].
  - apply bind_Return in H5 as (new6 & H6 & H5).
    destruct (find "Placement" node) as [place_root|]; [|done].
    apply bind_Return in H5 as (placement & _ & H5).
    split; [eapply setitem_valid; [|done]; by eapply setitem_valid|].
    split; [eauto|].
    split.
    { rewrite (setitem_lookup_ne _ _ _ _ _ _ H5) by done.
      by rewrite (setitem_lookup_ne _ _ _ _ _ _ H6). }
    split.
    { assert ("move_relative" ∈ keys) as Hmr by (subst keys; among).
      assert ("placement" ∈ keys) as Hpl by (subst keys; among).
      exact (holds_only_setitem keys _ _ _ _ _
               (holds_only_setitem keys _ _ _ _ _ O4 Hmr H6) Hpl H5). }
    rewrite (setitem_lookup_eq _ _ _ _ _ H5).
    rewrite (setitem_lookup_ne _ _ _ _ _ _ H5) by done.
    rewrite (setitem_lookup_eq _ _ _ _ _ H6). split; eauto.
  - injection H5 as <-.
    split; [done|]. split; [eauto|]. split; [done|]. split; [done|].
    rewrite P4, (M4 eq_refl). split; by intros [? ?].
Qed.

(** X9.  The body of [ObjectAction.fromXML] raises BadCaveXML for an
    element without a name attribute, and AttributeError for a named
    element without a Transition child. *)
Theorem ObjectAction_fromXML_body_malformed action_root :
  (attrib action_root !! "name" = None ->
   ObjectAction_fromXML_body action_root
   = Raise (BadCaveXML "ObjectChange node must have name attribute set"))
  /\ (is_Some (attrib action_root !! "name") ->
      find "Transition" action_root = None ->
      ObjectAction_fromXML_body action_root = Raise AttributeError).
Proof.
  unfold ObjectAction_fromXML_body. split.
  - by intros ->.
  - intros [name ->] ->.
    by rewrite (setitem_with _ _ _ _ _ ObjectAction_validates_object_name).
Qed.

(** X7.  The body of [CaveAction.fromXML] returns no instance for any
    element: for one of the seven tags it raises TypeError, from the call of
    the parser of the subclass, and for any other BadCaveXML naming the
    tag. *)
Theorem CaveAction_fromXML_body_never_returns action_root :
  (forall a, CaveAction_fromXML_body action_root <> Return a)
  /\ (Exists (fun t => py_eq (tag action_root) (PyStr t) = true) action_tags ->
      CaveAction_fromXML_body action_root = Raise TypeError)
  /\ (Forall (fun t => py_eq (tag action_root) (PyStr t) = false) action_tags ->
      CaveAction_fromXML_body action_root
      = Raise (BadCaveXML
                 ("Indicated action " +:+ py_str (tag action_root)
                    +:+ " is not a valid action type"))).
Proof.
  unfold CaveAction_fromXML_body, action_tags.
  rewrite !Exists_cons, Exists_nil, !Forall_cons, Forall_nil.
  destruct (py_eq (tag action_root) (PyStr "ObjectChange"));
  [|destruct (py_eq (tag action_root) (PyStr "GroupRef"));
  [|destruct (py_eq (tag action_root) (PyStr "TimerChange"));
  [|destruct (py_eq (tag action_root) (PyStr "SoundRef"));
  [|destruct (py_eq (tag action_root) (PyStr "Event"));
  [|destruct (py_eq (tag action_root) (PyStr "MoveCave"));
  [|destruct (py_eq (tag action_root) (PyStr "Restart"))]]]]]];
    (split; [done|]); (split; [try done; intuition congruence|]);
    try done; intuition congruence.
Qed.

Lemma ObjectAction_toXML_document_aux self name :
  self !! "object_name" = Some name ->
  self !! "placement" = None -> self !! "sound_change" = None ->
  color_unpacks self ->
  exists duration,
    get ObjectAction self "duration" = Return duration
    /\ document (ObjectAction_toXML self)
       = Return (object_document self name duration).
Proof.
  intros Hname Hplace Hsound Hcolor.
  destruct (ObjectAction_get_duration self) as [d Hd].
  exists d. split; [done|].
  unfold document, ObjectAction_toXML, object_document.
  rewrite (get_stored _ _ _ _ Hname), Hd.
  rewrite (contains_absent _ _ Hplace), (contains_absent _ _ Hsound).
  unfold visible_children, color_children, scale_children, link_children.
  unfold color_unpacks in Hcolor.
  destruct (self !! "visible") as [vis|] eqn:Hvis;
    [rewrite (contains_stored _ _ _ Hvis), (get_stored _ _ _ _ Hvis)
    |rewrite (contains_absent _ _ Hvis)];
  (destruct (self !! "color") as [col|] eqn:Hcol;
    [rewrite (contains_stored _ _ _ Hcol), (get_stored _ _ _ _ Hcol);
     destruct Hcolor as [s Hs]; rewrite Hs;
     apply bind_Return in Hs as (args & Hargs & Hfmt)
    |rewrite (contains_absent _ _ Hcol)]);
  (destruct (self !! "scale") as [sc|] eqn:Hsc;
    [rewrite (contains_stored _ _ _ Hsc), (get_stored _ _ _ _ Hsc)
    |rewrite (contains_absent _ _ Hsc)]);
  (destruct (self !! "link_change") as [lc|] eqn:Hlc;
    [rewrite (contains_stored _ _ _ Hlc), (get_stored _ _ _ _ Hlc)
    |rewrite (contains_absent _ _ Hlc)]);
  et_run; rewrite ?Hargs; cbn beta iota; rewrite ?Hfmt; cbn beta iota;
  repeat match goal with
         | |- context [py_eq ?lc (PyStr ?t)] =>
             destruct (py_eq lc (PyStr t)); cbn beta iota
         end;
  reflexivity.
Qed.

Lemma ObjectAction_validates_visible :
  argument_validators ObjectAction !! "visible"
  = Some (AlwaysValid "Either true or false").
Proof. by vm_compute. Qed.

(** X10.  An ObjectAction with a name, without placement and sound_change,
    is written as an ObjectChange element holding the name, with one
    Transition child that holds the duration, stored or default, and has a
    child for each of visible, color, scale and link_change that is set, in
    this order. *)
Theorem ObjectAction_toXML_document self name :
  self !! "object_name" = Some name ->
  self !! "placement" = None -> self !! "sound_change" = None ->
  color_unpacks self ->
  exists duration,
    get ObjectAction self "duration" = Return duration
    /\ document (ObjectAction_toXML self)
       = Return (object_document self name duration).
Proof. apply ObjectAction_toXML_document_aux. Qed.

(** X11.  Take an ObjectAction whose name is text, without placement and
    sound_change, whose duration comes back equal and valid from [float]
    and whose visible, if set, comes back equal from its text.  The body of
    the parser, run on what the action is written as, returns an instance
    that agrees with it on object_name, duration and visible and holds
    nothing else: color, scale, link_change and move_relative are not read
    back. *)
Theorem ObjectAction_round_trip_through_body self nm :
  let name := PyStr nm in
  self !! "object_name" = Some name ->
  self !! "placement" = None -> self !! "sound_change" = None ->
  color_unpacks self ->
  (forall duration,
     get ObjectAction self "duration" = Return duration ->
     survives ObjectAction "duration" py_float duration) ->
  survives_in ObjectAction self "visible"
    (fun v => text2bool (PyStr (bool2text v))) ->
  exists n a,
    document (ObjectAction_toXML self) = Return n
    /\ ObjectAction_fromXML_body n = Return a
    /\ agrees_on ["object_name"; "duration"; "visible"] self (items a)
    /\ holds_only ["object_name"; "duration"; "visible"] (items a).
Proof.
  intros name Hname Hplace Hsound Hcolor Hdur Hvis.
  destruct (ObjectAction_toXML_document_aux _ _ Hname Hplace Hsound Hcolor)
    as (d & Hd & Hdoc).
  destruct (Hdur d Hd) as (d' & Hfloat & Heqd & Haccd).
  set (base := <["duration" := d']>
                 (<["object_name" := name]> (∅ : gmap string pyval))).
  assert (exists new_action,
            ObjectAction_fromXML_body (object_document self name d)
            = Return {| class_of := IsObjectAction; items := new_action |}
            /\ (forall key, key <> "visible" ->
                  new_action !! key = base !! key)
            /\ match self !! "visible" with
               | Some v =>
                   exists v', new_action !! "visible" = Some v'
                              /\ py_eq v' v = true
               | None => new_action !! "visible" = None
               end)
    as (new_action & Hbody & Hother & Hvisible).
  { unfold ObjectAction_fromXML_body, object_document, visible_children,
      color_children, scale_children, link_children.
    unfold color_unpacks in Hcolor. unfold survives_in in Hvis.
    destruct (self !! "visible") as [v|];
      [destruct Hvis as (v' & Hv' & Heqv & _)|];
    (destruct (self !! "color") as [col|]; [destruct Hcolor as [s ->]|]);
    destruct (self !! "scale") as [sc|];
    destruct (self !! "link_change") as [lc|];
    read_object_document;
    rewrite !lookup_singleton_eq;
    rewrite (setitem_with _ _ _ _ _ ObjectAction_validates_object_name);
    cbn [AlwaysValid]; read_object_document;
    rewrite Hfloat; read_object_document;
    rewrite (setitem_accepts _ _ _ _ Haccd); read_object_document;
    rewrite ?Hv'; read_object_document;
    rewrite ?(setitem_with _ _ _ _ _ ObjectAction_validates_visible);
    cbn [AlwaysValid]; read_object_document;
    eexists; (split; [reflexivity|]);
    (split; [intros key Hkey; first [done|by rewrite lookup_insert_ne]|]);
    solve [ eexists; split; [apply lookup_insert_eq|done]
          | subst base; by rewrite !lookup_insert_ne, lookup_empty ]. }
  exists (object_document self name d), {| class_of := IsObjectAction;
                                            items := new_action |}.
  split; [done|]. split; [done|]. cbn [items]. split.
  - intros key Hkey value Hvalue.
    rewrite !elem_of_cons, elem_of_nil in Hkey.
    destruct Hkey as [->|[->|[->|[]]]].
    + rewrite Hother by done. subst base.
      rewrite lookup_insert_ne, lookup_insert_eq by done.
      rewrite Hname in Hvalue. injection Hvalue as <-.
      exists name. split; [done|]. apply py_eq_str_refl.
    + rewrite Hother by done. subst base. rewrite lookup_insert_eq.
      rewrite (get_stored _ _ _ _ Hvalue) in Hd. injection Hd as <-.
      eauto.
    + rewrite Hvalue in Hvisible. done.
  - intros key [v Hv].
    destruct (decide (key = "visible")) as [->|Hne]; [among|].
    rewrite Hother in Hv by done. subst base.
    destruct (decide (key = "duration")) as [->|Hne2]; [among|].
    rewrite lookup_insert_ne in Hv by done.
    destruct (decide (key = "object_name")) as [->|Hne3]; [among|].
    by rewrite lookup_insert_ne, lookup_empty in Hv.
Qed.

End MoreActionLaws.

(** ** pyw3d/sounds.py *)

Section MoreSoundLaws.
Context `{Modules}.
Implicit Types (self y : gmap string pyval) (st : list element).

Lemma W3DSound_no_default n :
  n ∈ ["name"; "filename"] -> default_arguments W3DSound !! n = None.
Proof.
  rewrite !elem_of_cons, elem_of_nil. intros [->|[->|[]]]; by vm_compute.
Qed.

(** X12.  A Sound without a name, or with a name and without a file name,
    is not written: ConsistencyError naming the key, and no element is
    created. *)
Theorem W3DSound_toXML_unnamed self all_sounds_root st :
  (self !! "name" = None ->
   W3DSound_toXML self all_sounds_root st
   = (Raise (ConsistencyError (must_set "name")), st))
  /\ (is_Some (self !! "name") -> self !! "filename" = None ->
      W3DSound_toXML self all_sounds_root st
      = (Raise (ConsistencyError (must_set "filename")), st)).
Proof.
  unfold W3DSound_toXML, W3DFeature_get. split.
  - intros Hname.
    by rewrite (get_missing _ _ _ Hname) by (apply W3DSound_no_default; among).
  - intros [name Hname] Hfile.
    rewrite (get_stored _ _ _ _ Hname).
    by rewrite (get_missing _ _ _ Hfile) by (apply W3DSound_no_default; among).
Qed.

(** X13.  A Sound with a name, a file name and a number of repetitions is
    written as a Sound element with the children Mode, Repeat and Settings.
    It holds the name and the file name as text, and autostart exactly when
    autostart is set; Mode holds one element named after the movement mode,
    stored or default; Settings has no children and holds freq, volume and
    pan exactly for those of frequency_scale, volume_scale and pan that are
    set. *)
Theorem W3DSound_toXML_writes_what_is_set self name filename repetitions x :
  self !! "name" = Some name -> self !! "filename" = Some filename ->
  get W3DSound self "repetitions" = Return repetitions ->
  as_num repetitions = Some x ->
  exists sound mode settings_node,
    document (W3DSound_toXML self) = Return sound
    /\ tag sound = PyStr "Sound"
    /\ map tag (children sound)
       = [PyStr "Mode"; PyStr "Repeat"; PyStr "Settings"]
    /\ attrib sound !! "name" = Some (PyStr (py_str name))
    /\ attrib sound !! "filename" = Some (PyStr (py_str filename))
    /\ attrib sound !! "autostart"
       = (fun v => PyStr (bool2text v)) <$> self !! "autostart"
    /\ get W3DSound self "movement_mode" = Return mode
    /\ find "Mode" sound = Some (Node (PyStr "Mode") ∅ None [Node mode ∅ None []])
    /\ find "Settings" sound = Some settings_node
    /\ children settings_node = []
    /\ attrib settings_node !! "freq"
       = (fun v => PyStr (py_str v)) <$> self !! "frequency_scale"
    /\ attrib settings_node !! "volume"
       = (fun v => PyStr (py_str v)) <$> self !! "volume_scale"
    /\ attrib settings_node !! "pan"
       = (fun v => PyStr (py_str v)) <$> self !! "pan".
Proof.
  intros Hname Hfile Hrep Hnum.
  destruct (W3DSound_document _ _ _ _ _ Hname Hfile Hrep Hnum)
    as (mode & Hmode & Hdoc).
  destruct (sound_settings_of_lookup self) as (Sfreq & Svol & Span).
  eexists _, mode, (Node (PyStr "Settings") (sound_settings_of self) None []).
  split; [exact Hdoc|]. split; [done|]. split; [done|].
  split; [apply sound_attrib_name|]. split; [apply sound_attrib_filename|].
  split; [apply sound_attrib_autostart|]. split; [done|].
  split; [done|]. split; [done|]. done.
Qed.

(** One write: the instance stays valid, the other attributes stay. *)
Lemma setitem_step K y k v y1 :
  setitem K y k v = Return y1 ->
  (valid K y -> valid K y1)
  /\ (forall key, key <> k -> y1 !! key = y !! key)
  /\ y1 !! k = Some v.
Proof.
  intros Hset. split; [intros Hv; by eapply setitem_valid|].
  split; [intros key Hne; by eapply setitem_lookup_ne|].
  by eapply setitem_lookup_eq.
Qed.

(** One attribute of the Settings element, read or passed over. *)
Lemma read_setting_inv settings y xml key rest y' :
  sound_read_settings settings y ((xml, key) :: rest) = Return y' ->
  exists y1,
    sound_read_settings settings y1 rest = Return y'
    /\ (valid W3DSound y -> valid W3DSound y1)
    /\ (forall k, k <> key -> y1 !! k = y !! k)
    /\ (y !! key = None ->
        (is_Some (y1 !! key) <-> is_Some (settings !! xml))).
Proof.
  cbn [sound_read_settings].
  destruct (settings !! xml) as [v|].
  - intros (w & _ & Hrest)%bind_Return.
    apply bind_Return in Hrest as (y1 & Hset & Hrest).
    exists y1. split; [done|].
    destruct (setitem_step _ _ _ _ _ Hset) as (Hv & Hframe & Hkey).
    split; [done|]. split; [done|]. intros _. rewrite Hkey. split; eauto.
  - intros Hrest. exists y. split; [done|]. split; [done|]. split; [done|].
    intros ->. split; by intros [? ?].
Qed.

Lemma sound_mode_inv movement_node y valid_options y' :
  sound_mode movement_node y valid_options = Return y' ->
  y' = y
  \/ exists mode,
       mode ∈ valid_options /\ is_Some (find mode movement_node)
       /\ setitem W3DSound y "movement_mode" (PyStr mode) = Return y'.
Proof.
  induction valid_options as [|mode rest IH]; cbn [sound_mode].
  - intros [= <-]. by left.
  - destruct (find mode movement_node) as [c|] eqn:Hfind.
    + intros Hset. right. exists mode.
      split; [apply list_elem_of_here|]. split; [by rewrite Hfind|done].
    + intros [->|(m & Hm & Hfound & Hset)]%IH; [by left|].
      right. exists m. split; [by apply list_elem_of_further|done].
Qed.

(** What the parser has read whenever it returns a Sound. *)
Lemma W3DSound_fromXML_inv sound_root y :
  W3DSound_fromXML sound_root = Return y ->
  exists movement_node mode repeat_node repetitions settings_node,
    valid W3DSound y
    /\ is_Some (attrib sound_root !! "name")
    /\ y !! "name" = attrib sound_root !! "name"
    /\ is_Some (attrib sound_root !! "filename")
    /\ y !! "filename" = attrib sound_root !! "filename"
    /\ (is_Some (y !! "autostart")
        <-> is_Some (attrib sound_root !! "autostart"))
    /\ find "Mode" sound_root = Some movement_node
    /\ mode ∈ movement_modes
    /\ is_Some (find mode movement_node)
    /\ y !! "movement_mode" = Some (PyStr mode)
    /\ find "Repeat" sound_root = Some repeat_node
    /\ y !! "repetitions" = Some repetitions
    /\ repetitions_read repeat_node repetitions
    /\ find "Settings" sound_root = Some settings_node
    /\ (is_Some (y !! "frequency_scale")
        <-> is_Some (attrib settings_node !! "freq"))
    /\ (is_Some (y !! "volume_scale")
        <-> is_Some (attrib settings_node !! "volume"))
    /\ (is_Some (y !! "pan") <-> is_Some (attrib settings_node !! "pan")).
Proof.
  unfold W3DSound_fromXML, classmethod_call. cbn [Nat.eqb].
  unfold W3DSound_fromXML_body, W3DFeature_setitem.
  intros (y1 & H1 & Hrest)%bind_Return.
  apply bind_Return in Hrest as (y2 & H2 & Hrest).
  apply bind_Return in Hrest as (y3 & H3 & Hrest).
  apply bind_Return in Hrest as (movement_node & Hmn & Hrest).
  apply bind_Return in Hrest as (y4 & H4 & Hrest).
  apply bind_Return in Hrest as ([] & Hcheck & Hrest).
  apply bind_Return in Hrest as (repeat_node & Hrn & Hrest).
  apply bind_Return in Hrest as (y5 & H5 & Hrest).
  apply bind_Return in Hrest as (settings_node & Hsn & Hrest).
  apply bind_Return in Hrest as (y8 & H6 & [= <-]).
  (* name and file name *)
  destruct (attrib sound_root !! "name") as [name|]; [|done].
  destruct (setitem_step _ _ _ _ _ H1) as (V1 & F1 & K1).
  destruct (attrib sound_root !! "filename") as [filename|]; [|done].
  destruct (setitem_step _ _ _ _ _ H2) as (V2 & F2 & K2).
  (* autostart *)
  assert ((valid W3DSound y2 -> valid W3DSound y3)
          /\ (forall k, k <> "autostart" -> y3 !! k = y2 !! k)
          /\ (is_Some (y3 !! "autostart")
              <-> is_Some (attrib sound_root !! "autostart")))
    as (V3 & F3 & K3).
  { destruct (attrib sound_root !! "autostart") as [autostart|].
    - apply bind_Return in H3 as (b & _ & H3).
      destruct (setitem_step _ _ _ _ _ H3) as (V3 & F3 & K3).
      split; [done|]. split; [done|]. rewrite K3. split; eauto.
    - injection H3 as <-. split; [done|]. split; [done|].
      rewrite F2, F1, lookup_empty by done. done. }
  (* the mode *)
  destruct (find "Mode" sound_root) as [mn|]; [|done].
  injection Hmn as ->.
  apply sound_mode_inv in H4 as [->|(mode & Hmode & Hfound & H4)].
  { rewrite contains_absent in Hcheck; [done|].
    by rewrite F3, F2, F1, lookup_empty. }
  destruct (setitem_step _ _ _ _ _ H4) as (V4 & F4 & K4).
  (* the repetitions *)
  destruct (find "Repeat" sound_root) as [rn|]; [|done].
  injection Hrn as ->.
  assert (exists repetitions,
            setitem W3DSound y4 "repetitions" repetitions = Return y5
            /\ repetitions_read repeat_node repetitions)
    as (repetitions & H5' & Hread).
  { unfold repetitions_read.
    destruct (find "NoRepeat" repeat_node); [by eexists|].
    destruct (find "RepeatForever" repeat_node); [by eexists|].
    unfold repeat_number in H5.
    destruct (find "RepeatNum" repeat_node) as [number|]; [|done].
    destruct (text number) as [t|] eqn:Ht; [|done].
    destruct (int_of_string (str_strip t)) as [z|] eqn:Hz; [|done].
    exists (PyInt z). split; [done|]. by exists number, t, z. }
  destruct (setitem_step _ _ _ _ _ H5') as (V5 & F5 & K5).
  (* the settings *)
  destruct (find "Settings" sound_root) as [sn|]; [|done].
  injection Hsn as ->.
  apply read_setting_inv in H6 as (y6 & H6 & V6 & F6 & K6).
  apply read_setting_inv in H6 as (y7 & H7 & V7 & F7 & K7).
  apply read_setting_inv in H7 as (y8' & H8 & V8 & F8 & K8).
  injection H8 as ->.
  exists movement_node, mode, repeat_node, repetitions, settings_node.
  split; [apply V8, V7, V6, V5, V4, V3, V2, V1, valid_empty|].
  split; [eauto|].
  split; [by rewrite F8, F7, F6, F5, F4, F3, F2|].
  split; [eauto|].
  split; [by rewrite F8, F7, F6, F5, F4, F3|].
  split; [by rewrite F8, F7, F6, F5, F4|].
  split; [done|]. split; [done|]. split; [done|].
  split; [by rewrite F8, F7, F6, F5|].
  split; [done|].
  split; [by rewrite F8, F7, F6|].
  split; [done|]. split; [done|].
  split.
  { rewrite F8, F7 by done. apply K6.
    by rewrite F5, F4, F3, F2, F1, lookup_empty. }
  split.
  { rewrite F8 by done. apply K7.
    by rewrite F6, F5, F4, F3, F2, F1, lookup_empty. }
  apply K8. by rewrite F7, F6, F5, F4, F3, F2, F1, lookup_empty.
Qed.

(** X14.  Whenever the parser returns a Sound, it is valid and holds
    nothing outside its schema; its name and file name are the attributes
    of the element; it has autostart, frequency_scale, volume_scale and pan
    exactly when the element, or its Settings child, has the attribute;
    its movement mode is one that the Mode child has an element for; and
    neither its movement mode nor its repetitions is a default. *)
Theorem W3DSound_fromXML_Return sound_root y :
  W3DSound_fromXML sound_root = Return y ->
  valid W3DSound y
  /\ holds_only sound_keys y
  /\ is_Some (attrib sound_root !! "name")
  /\ y !! "name" = attrib sound_root !! "name"
  /\ is_Some (attrib sound_root !! "filename")
  /\ y !! "filename" = attrib sound_root !! "filename"
  /\ (is_Some (y !! "autostart")
      <-> is_Some (attrib sound_root !! "autostart"))
  /\ (exists movement_node mode,
        find "Mode" sound_root = Some movement_node
        /\ mode ∈ movement_modes
        /\ is_Some (find mode movement_node)
        /\ y !! "movement_mode" = Some (PyStr mode))
  /\ is_default W3DSound y "movement_mode" = false
  /\ is_default W3DSound y "repetitions" = false
  /\ (exists settings_node,
        find "Settings" sound_root = Some settings_node
        /\ (is_Some (y !! "frequency_scale")
            <-> is_Some (attrib settings_node !! "freq"))
        /\ (is_Some (y !! "volume_scale")
            <-> is_Some (attrib settings_node !! "volume"))
        /\ (is_Some (y !! "pan")
            <-> is_Some (attrib settings_node !! "pan"))).
Proof.
  intros (movement_node & mode & repeat_node & repetitions & settings_node
          & Hvalid & Hname & Yname & Hfile & Yfile & Yauto & Hmn & Hmode
          & Hfound & Ymode & Hrn & Yrep & Hread & Hsn & Yfreq & Yvol & Ypan)
         %W3DSound_fromXML_inv.
  split; [done|]. split.
  { intros key [v Hv]. destruct (Hvalid _ _ Hv) as (f & Hf & _).
    by apply W3DSound_schema_keys in Hf. }
  split; [done|]. split; [done|]. split; [done|]. split; [done|].
  split; [done|]. split; [by exists movement_node, mode|].
  split; [by apply (is_default_stored _ _ _ _ Ymode)|].
  split; [by apply (is_default_stored _ _ _ _ Yrep)|].
  by exists settings_node.
Qed.

(** X15.  Whenever the parser returns a Sound, its repetitions are read
    off the Repeat child: 0 when that has a NoRepeat child, else -1 when it
    has a RepeatForever child, else the int that the text of its RepeatNum
    child spells. *)
Theorem W3DSound_fromXML_repetitions sound_root y :
  W3DSound_fromXML sound_root = Return y ->
  exists repeat_node repetitions,
    find "Repeat" sound_root = Some repeat_node
    /\ y !! "repetitions" = Some repetitions
    /\ repetitions_read repeat_node repetitions.
Proof.
  intros (movement_node & mode & repeat_node & repetitions & settings_node
          & Hvalid & Hname & Yname & Hfile & Yfile & Yauto & Hmn & Hmode
          & Hfound & Ymode & Hrn & Yrep & Hread & Hsn & Yfreq & Yvol & Ypan)
         %W3DSound_fromXML_inv.
  by exists repeat_node, repetitions.
Qed.

Lemma repetitions_read_int repeat_node repetitions :
  repetitions_read repeat_node repetitions -> exists z, repetitions = PyInt z.
Proof.
  unfold repetitions_read.
  destruct (find "NoRepeat" repeat_node); [eauto|].
  destruct (find "RepeatForever" repeat_node); [eauto|].
  intros (number & t & z & _ & _ & _ & ->). eauto.
Qed.

(** X17.  A Sound that the parser has returned can be written, and its
    Repeat element is the one of its int number of repetitions. *)
Theorem W3DSound_read_then_written sound_root y :
  W3DSound_fromXML sound_root = Return y ->
  exists z sound,
    y !! "repetitions" = Some (PyInt z)
    /\ document (W3DSound_toXML y) = Return sound
    /\ find "Repeat" sound
       = Some (Node (PyStr "Repeat") ∅ None (repeat_children_int z)).
Proof.
  intros (movement_node & mode & repeat_node & repetitions & settings_node
          & Hvalid & [name Hname] & Yname & [filename Hfile] & Yfile & Yauto
          & Hmn & Hmode & Hfound & Ymode & Hrn & Yrep & Hread & Hsn & Yfreq
          & Yvol & Ypan)%W3DSound_fromXML_inv.
  apply repetitions_read_int in Hread as [z ->].
  rewrite Hname in Yname. rewrite Hfile in Yfile.
  destruct (W3DSound_document y name filename (PyInt z) (NumZ z))
    as (mode' & _ & Hdoc); [done|done|by apply get_stored|done|].
  exists z. eexists. split; [done|]. split; [exact Hdoc|].
  unfold repeat_children_int. cbn.
  destruct (Z.compare_spec z 0) as [->|Hlt|Hgt]; cbn.
  - done.
  - by apply Z.ltb_lt in Hlt as ->.
  - assert ((z <? 0) = false) as -> by lia.
    assert ((z =? 0) = false) as -> by lia. done.
Qed.

Lemma sound_mode_found movement_node y :
  (exists mode, mode ∈ movement_modes /\ is_Some (find mode movement_node)) ->
  exists mode,
    sound_mode movement_node y movement_modes
    = Return (<["movement_mode" := PyStr mode]> y).
Proof.
  intros (mode & Hmode & Hfound).
  assert (forall m, m ∈ movement_modes ->
            setitem W3DSound y "movement_mode" (PyStr m)
            = Return (<["movement_mode" := PyStr m]> y)) as Hset.
  { intros m Hm. apply setitem_accepts.
    eexists. split; [apply W3DSound_validates|].
    unfold movement_modes in Hm. rewrite !elem_of_cons, elem_of_nil in Hm.
    destruct Hm as [->|[->|[]]]; done. }
  unfold movement_modes in *. cbn [sound_mode]. unfold W3DFeature_setitem.
  destruct (find "Positional" movement_node) eqn:Hpos.
  { exists "Positional". apply Hset. among. }
  destruct (find "Fixed" movement_node) eqn:Hfix.
  { exists "Fixed". apply Hset. among. }
  rewrite !elem_of_cons, elem_of_nil in Hmode.
  destruct Hmode as [->|[->|[]]].
  - rewrite Hpos in Hfound. by destruct Hfound.
  - rewrite Hfix in Hfound. by destruct Hfound.
Qed.

(** X16.  For a Sound element that is well formed up to its Repeat child,
    which has neither NoRepeat nor RepeatForever: without a RepeatNum child,
    or with one that has no text, the parser raises BadW3DXML; with one
    whose text is not an int it raises ValueError. *)
Theorem W3DSound_fromXML_unreadable_repeat sound_root name filename
    movement_node repeat_node :
  attrib sound_root !! "name" = Some name -> ValidPyString name = true ->
  attrib sound_root !! "filename" = Some filename ->
  ValidFile filename = true ->
  attrib sound_root !! "autostart" = None ->
  find "Mode" sound_root = Some movement_node ->
  (exists mode, mode ∈ movement_modes /\ is_Some (find mode movement_node)) ->
  find "Repeat" sound_root = Some repeat_node ->
  find "NoRepeat" repeat_node = None ->
  find "RepeatForever" repeat_node = None ->
  match find "RepeatNum" repeat_node with
  | None =>
      W3DSound_fromXML sound_root
      = Raise (BadW3DXML
                 "Repeat node must contain child node specifying repetitions")
  | Some number =>
      match text number with
      | None =>
          W3DSound_fromXML sound_root
          = Raise (BadW3DXML
                     "Repeat node must contain child node specifying repetitions")
      | Some t =>
          int_of_string (str_strip t) = None ->
          W3DSound_fromXML sound_root = Raise ValueError
      end
  end.
Proof.
  intros Hname Vname Hfile Vfile Hauto Hmn Hmode Hrn Hno Hforever.
  unfold W3DSound_fromXML, classmethod_call. cbn [Nat.eqb].
  unfold W3DSound_fromXML_body, W3DFeature_setitem.
  destruct W3DSound_validates as (Sname & Sfile & _).
  rewrite Hname, (setitem_with _ _ _ _ _ Sname), Vname.
  cbn [mbind result_bind bind].
  rewrite Hfile, (setitem_with _ _ _ _ _ Sfile), Vfile.
  cbn [mbind result_bind bind].
  rewrite Hauto, Hmn. cbn [mbind result_bind bind].
  destruct (sound_mode_found movement_node
              (<["filename" := filename]> (<["name" := name]> ∅)) Hmode)
    as [mode ->].
  cbn [mbind result_bind bind].
  rewrite (contains_stored _ "movement_mode" (PyStr mode))
    by apply lookup_insert_eq.
  cbn [negb mbind result_bind bind].
  rewrite Hrn. cbn [mbind result_bind bind]. rewrite Hno, Hforever.
  unfold repeat_number.
  destruct (find "RepeatNum" repeat_node) as [number|]; [|done].
  destruct (text number) as [t|]; [|done].
  by intros ->.
Qed.


End MoreSoundLaws.

Section AudioLaws.
Context `{Blender}.

Implicit Types (cache : gmap string blender_sound).

Lemma generate_cached depth filename cache sound data :
  cache !! filename = Some sound ->
  generate_blender_audio_from_file (S depth) filename (Some cache) data
  = Some (Return sound, Some cache, data).
Proof. intros Hc. cbn. by rewrite Hc. Qed.

(** X18.  Once [generate_blender_audio_from_file] has returned a sound for
    a file, the sound is kept under the name of the file, and every later
    call for that file returns it at once, with Blender's data and the
    sounds kept as they are. *)
Theorem generate_blender_audio_from_file_once depth filename _sounds data
    sound _sounds' data' :
  generate_blender_audio_from_file depth filename _sounds data
  = Some (Return sound, _sounds', data') ->
  (exists cache, _sounds' = Some cache /\ cache !! filename = Some sound)
  /\ (forall depth' data'',
        generate_blender_audio_from_file (S depth') filename _sounds' data''
        = Some (Return sound, _sounds', data'')).
Proof.
  intros Hrun.
  assert (exists cache, _sounds' = Some cache /\ cache !! filename = Some sound)
    as (cache & -> & Hc).
  { revert _sounds data Hrun.
    induction depth as [|depth IH]; intros _sounds data; cbn; [done|].
    destruct _sounds as [cache|]; [|apply IH].
    destruct (cache !! filename) as [s|] eqn:Hc.
    - intros [= <- <- <-]. eauto.
    - destruct (sound_open filename data) as [[[]|e] data1]; [|done].
      destruct (data_sounds data1 !! 0%nat); [apply IH|done]. }
  split; [eauto|]. intros depth' data''. by apply generate_cached.
Qed.

(** X19.  Three nested calls are enough for
    [generate_blender_audio_from_file] to end, and more change nothing.
    For a file not met before that Blender opens, the sound returned and
    kept is the first of [bpy.data.sounds] after the opening. *)
Theorem generate_blender_audio_from_file_depth filename _sounds data :
  let cache := default ∅ _sounds in
  (forall depth,
     generate_blender_audio_from_file (3 + depth) filename _sounds data
     = generate_blender_audio_from_file 3 filename _sounds data)
  /\ is_Some (generate_blender_audio_from_file 3 filename _sounds data)
  /\ (forall data' sound rest,
        cache !! filename = None ->
        sound_open filename data = (Return tt, data') ->
        data_sounds data' = sound :: rest ->
        generate_blender_audio_from_file 3 filename _sounds data
        = Some (Return sound, Some (<[filename := sound]> cache), data')).
Proof.
  intros cache. subst cache.
  split; [|split].
  - intros depth. cbn.
    destruct _sounds as [cache|]; cbn.
    + destruct (cache !! filename) as [s|] eqn:Hc; [done|].
      destruct (sound_open filename data) as [[[]|e] data1]; [|done].
      destruct (data_sounds data1 !! 0%nat); [|done].
      by rewrite lookup_insert_eq.
    + rewrite lookup_empty.
      destruct (sound_open filename data) as [[[]|e] data1]; [|done].
      destruct (data_sounds data1 !! 0%nat); [|done].
      by rewrite lookup_insert_eq.
  - cbn. destruct _sounds as [cache|]; cbn.
    + destruct (cache !! filename) as [s|] eqn:Hc; [done|].
      destruct (sound_open filename data) as [[[]|e] data1]; [|done].
      destruct (data_sounds data1 !! 0%nat); [|done].
      by rewrite lookup_insert_eq.
    + rewrite lookup_empty.
      destruct (sound_open filename data) as [[[]|e] data1]; [|done].
      destruct (data_sounds data1 !! 0%nat); [|done].
      by rewrite lookup_insert_eq.
  - intros data' sound rest Hc Hopen Hsounds. cbn.
    destruct _sounds as [cache|]; cbn in *.
    + by rewrite Hc, Hopen, Hsounds; cbn; rewrite lookup_insert_eq.
    + by rewrite lookup_empty, Hopen, Hsounds; cbn; rewrite lookup_insert_eq.
Qed.

End AudioLaws.

(** ** pyw3d/project.py *)

Section GroupLaws.
Context `{Python}.
Variable W3DGroup : feature_class.

Implicit Types (group a b : gmap string pyval).
Implicit Types (groups new_groups popped done rest : list (gmap string pyval)).

Lemma sort_groups_for_before_container group rest : forall done,
  sort_groups_for W3DGroup group (done ++ rest)%list
    (seq (length done) (length rest))
  = placed ← before_container W3DGroup group rest;
    Return (match placed with
            | Some rest' => (done ++ rest')%list
            | None => (done ++ rest)%list
            end).
Proof.
  induction rest as [|member rest IH]; intros done.
  - done.
  - cbn [length seq sort_groups_for before_container].
    destruct (W3DFeature_get W3DGroup group "name") as [name|e]; [|done].
    cbn [mbind result_bind bind].
    rewrite lookup_app_r, Nat.sub_diag by done. cbn [lookup list_lookup].
    cbn [mbind result_bind bind].
    destruct (W3DFeature_get W3DGroup member "groups") as [gs|e]; [|done].
    cbn [mbind result_bind bind].
    destruct (py_in name gs) as [[]|e]; [| |done];
      cbn [mbind result_bind bind].
    + unfold list_insert_at.
      by rewrite take_app_length, drop_app_length.
    + specialize (IH (done ++ [member])%list).
      rewrite length_app, Nat.add_1_r, <- app_assoc in IH. cbn in IH.
      rewrite IH.
      destruct (before_container W3DGroup group rest) as [[rest'|]|e];
        cbn; by rewrite <- ?app_assoc.
Qed.

Lemma before_container_length group rest rest' :
  before_container W3DGroup group rest = Return (Some rest') ->
  length rest' = S (length rest).
Proof.
  revert rest'. induction rest as [|member rest IH]; intros rest'; cbn.
  - done.
  - intros (name & _ & Hrest)%bind_Return.
    apply bind_Return in Hrest as (gs & _ & Hrest).
    apply bind_Return in Hrest as ([] & _ & Hrest).
    + by injection Hrest as <-.
    + apply bind_Return in Hrest as ([placed|] & Hplaced & [= <-]).
      cbn. by rewrite (IH _ Hplaced).
Qed.

(** The body of the loop: the group goes before its first container, or to
    the end. *)
Lemma sort_groups_body_eq group new_groups :
  sort_groups_body W3DGroup group new_groups
  = placed ← before_container W3DGroup group new_groups;
    Return (default (new_groups ++ [group])%list placed).
Proof.
  unfold sort_groups_body.
  pose proof (sort_groups_for_before_container group new_groups []) as Hfor.
  cbn [app length] in Hfor. cbv zeta. rewrite Hfor.
  destruct (before_container W3DGroup group new_groups) as [[placed|]|e]
    eqn:Hplaced; cbn; [| |done].
  - rewrite (before_container_length _ _ _ Hplaced).
    by destruct (Nat.eqb_spec (length new_groups) (S (length new_groups)));
      [lia|].
  - by rewrite Nat.eqb_refl.
Qed.

Lemma before_container_Permutation group rest rest' :
  before_container W3DGroup group rest = Return (Some rest') ->
  rest' ≡ₚ group :: rest.
Proof.
  revert rest'. induction rest as [|member rest IH]; intros rest'; cbn.
  - done.
  - intros (name & _ & Hrest)%bind_Return.
    apply bind_Return in Hrest as (gs & _ & Hrest).
    apply bind_Return in Hrest as ([] & _ & Hrest).
    + by injection Hrest as <-.
    + apply bind_Return in Hrest as ([placed|] & Hplaced & [= <-]).
      cbn. rewrite (IH _ Hplaced). apply Permutation_swap.
Qed.

Lemma sort_groups_body_Permutation group new_groups new_groups' :
  sort_groups_body W3DGroup group new_groups = Return new_groups' ->
  new_groups' ≡ₚ group :: new_groups.
Proof.
  rewrite sort_groups_body_eq.
  intros ([placed|] & Hplaced & [= <-])%bind_Return; cbn.
  - by apply before_container_Permutation.
  - by rewrite Permutation_app_comm.
Qed.

Lemma sort_groups_while_Return popped : forall new_groups new_groups' left,
  sort_groups_while W3DGroup popped new_groups = (Return new_groups', left) ->
  new_groups' ≡ₚ (reverse popped ++ new_groups)%list /\ left = [].
Proof.
  induction popped as [|group popped IH]; intros new_groups new_groups' left;
    cbn [sort_groups_while].
  - by intros [= <- <-].
  - destruct (sort_groups_body W3DGroup group new_groups) as [new1|e] eqn:Hbody;
      [|done].
    intros [Hperm ->]%IH. split; [|done].
    rewrite Hperm, (sort_groups_body_Permutation _ _ _ Hbody).
    rewrite reverse_cons, <- app_assoc. done.
Qed.

(** X20.  When [sort_groups] ends, the list it assigns has the groups of
    the project, each as often as before, and the list it has popped from
    is empty. *)
Theorem sort_groups_Permutation groups new_groups left :
  sort_groups W3DGroup groups = (Return new_groups, left) ->
  new_groups ≡ₚ groups /\ left = [].
Proof.
  unfold sort_groups.
  destruct (sort_groups_while W3DGroup (reverse groups) []) as [r popped]
    eqn:Hwhile.
  intros [= -> <-].
  apply sort_groups_while_Return in Hwhile as [Hperm ->].
  by rewrite Hperm, reverse_involutive, app_nil_r.
Qed.

Lemma before_container_none group rest :
  Forall (not_contained W3DGroup group) rest ->
  before_container W3DGroup group rest = Return None.
Proof.
  induction 1 as [|member rest (name & gs & Hname & Hgs & Hin) _ IH]; cbn.
  - done.
  - rewrite Hname, Hgs. cbn. rewrite Hin. cbn. by rewrite IH.
Qed.

Lemma sort_groups_while_flat popped : forall new_groups,
  (forall a b, a ∈ popped -> b ∈ (popped ++ new_groups)%list ->
     not_contained W3DGroup a b) ->
  sort_groups_while W3DGroup popped new_groups
  = (Return (new_groups ++ popped)%list, []).
Proof.
  induction popped as [|group popped IH]; intros new_groups Hflat;
    cbn [sort_groups_while].
  - by rewrite app_nil_r.
  - rewrite sort_groups_body_eq, before_container_none.
    + cbn. rewrite IH; [by rewrite <- app_assoc|].
      intros a b Ha Hb. apply Hflat.
      * by apply list_elem_of_further.
      * revert Hb. rewrite !elem_of_app, !elem_of_cons, elem_of_nil. tauto.
    + apply Forall_forall. intros b Hb. apply Hflat.
      * apply list_elem_of_here.
      * rewrite elem_of_app. by right.
Qed.

(** X21.  Groups none of which names itself or another among its groups
    come out of [sort_groups] in reverse order. *)
Theorem sort_groups_flat groups :
  (forall a b, a ∈ groups -> b ∈ groups -> not_contained W3DGroup a b) ->
  sort_groups W3DGroup groups = (Return (reverse groups), []).
Proof.
  intros Hflat. unfold sort_groups.
  rewrite sort_groups_while_flat; [done|].
  intros a b. rewrite app_nil_r, !elem_of_reverse. apply Hflat.
Qed.

Lemma before_container_sublist group rest placed :
  before_container W3DGroup group rest = Return placed ->
  rest `sublist_of` default (rest ++ [group])%list placed.
Proof.
  revert placed. induction rest as [|member rest IH]; intros placed; cbn.
  - intros [= <-]. cbn. apply sublist_nil_l.
  - intros (name & _ & Hrest)%bind_Return.
    apply bind_Return in Hrest as (gs & _ & Hrest).
    apply bind_Return in Hrest as ([] & _ & Hrest).
    + injection Hrest as <-. cbn. by apply sublist_cons.
    + apply bind_Return in Hrest as (placed' & Hplaced & [= <-]).
      specialize (IH _ Hplaced).
      destruct placed' as [rest'|]; cbn in *; by apply sublist_skip.
Qed.

Lemma before_container_found a b rest placed :
  before_container W3DGroup a rest = Return placed ->
  b ∈ rest -> contained W3DGroup a b ->
  exists rest', placed = Some rest' /\ [a; b] `sublist_of` rest'.
Proof.
  intros Hplaced Hb (name & gs & Hname & Hgs & Hin).
  revert placed Hplaced.
  induction rest as [|member rest IH]; intros placed; cbn.
  - by apply elem_of_nil in Hb.
  - rewrite Hname. cbn [mbind result_bind bind].
    intros (gs' & Hgs' & Hrest)%bind_Return.
    apply bind_Return in Hrest as ([] & Hin' & Hrest).
    + injection Hrest as <-. eexists. split; [done|].
      apply sublist_skip. by apply singleton_sublist_l.
    + apply bind_Return in Hrest as (placed' & Hplaced & [= <-]).
      apply elem_of_cons in Hb as [->|Hb].
      { rewrite Hgs in Hgs'. injection Hgs' as <-. congruence. }
      destruct (IH Hb _ Hplaced) as (rest' & -> & Hsub).
      eexists. split; [done|]. by apply sublist_cons.
Qed.

Lemma sort_groups_while_sublist popped : forall new_groups new_groups' left,
  sort_groups_while W3DGroup popped new_groups = (Return new_groups', left) ->
  new_groups `sublist_of` new_groups'.
Proof.
  induction popped as [|group popped IH]; intros new_groups new_groups' left;
    cbn [sort_groups_while].
  - by intros [= <- <-].
  - rewrite sort_groups_body_eq.
    destruct (before_container W3DGroup group new_groups) as [placed|e]
      eqn:Hplaced; [|done].
    cbn. intros Hrest%IH. etrans; [|exact Hrest].
    by apply before_container_sublist.
Qed.

Lemma before_container_placed group new_groups placed :
  before_container W3DGroup group new_groups = Return placed ->
  default (new_groups ++ [group])%list placed ≡ₚ group :: new_groups.
Proof.
  destruct placed as [rest'|]; cbn.
  - apply before_container_Permutation.
  - intros _. by rewrite Permutation_app_comm.
Qed.

Lemma sort_groups_while_order a b popped : forall new_groups new_groups' left,
  sort_groups_while W3DGroup popped new_groups = (Return new_groups', left) ->
  contained W3DGroup a b ->
  (exists l1 l2, popped = (l1 ++ a :: l2)%list
                 /\ b ∈ (l1 ++ new_groups)%list) ->
  [a; b] `sublist_of` new_groups'.
Proof.
  induction popped as [|group popped IH]; intros new_groups new_groups' left;
    cbn [sort_groups_while].
  - intros _ _ (l1 & l2 & Heq & _). by destruct l1.
  - rewrite sort_groups_body_eq.
    destruct (before_container W3DGroup group new_groups) as [placed|e]
      eqn:Hplaced; [|done].
    cbn. intros Hrest Hab (l1 & l2 & Heq & Hb).
    destruct l1 as [|g l1]; cbn in Heq; injection Heq as -> ->.
    + cbn in Hb.
      destruct (before_container_found _ _ _ _ Hplaced Hb Hab)
        as (rest' & -> & Hsub).
      cbn in Hrest. etrans; [exact Hsub|].
      by eapply sort_groups_while_sublist.
    + apply (IH _ _ _ Hrest Hab). exists l1, l2. split; [done|].
      apply before_container_placed in Hplaced.
      rewrite elem_of_app, Hplaced, elem_of_cons.
      cbn in Hb. rewrite elem_of_cons, elem_of_app in Hb. tauto.
Qed.

(** X22.  A group listed before a group that names it among its groups
    stays before it when [sort_groups] ends. *)
Theorem sort_groups_member_first groups a b l1 l2 l3 new_groups left :
  sort_groups W3DGroup groups = (Return new_groups, left) ->
  groups = (l1 ++ a :: l2 ++ b :: l3)%list ->
  contained W3DGroup a b ->
  [a; b] `sublist_of` new_groups.
Proof.
  unfold sort_groups.
  destruct (sort_groups_while W3DGroup (reverse groups) []) as [r popped]
    eqn:Hwhile.
  intros [= -> <-] -> Hab.
  apply (sort_groups_while_order a b _ _ _ _ Hwhile Hab).
  exists (reverse l3 ++ b :: reverse l2)%list, (reverse l1).
  split.
  - rewrite reverse_app, reverse_cons, reverse_app, reverse_cons.
    by rewrite <- !app_assoc.
  - rewrite app_nil_r, elem_of_app, elem_of_cons. auto.
Qed.

Lemma sort_groups_body_nil group :
  sort_groups_body W3DGroup group [] = Return [group].
Proof. done. Qed.

Lemma sort_groups_while_Raise popped : forall new_groups e left,
  sort_groups_while W3DGroup popped new_groups = (Raise e, left) ->
  exists lost,
    popped = (lost ++ left)%list
    /\ (2 <= length lost + length new_groups)%nat
    /\ (1 <= length lost)%nat.
Proof.
  induction popped as [|group popped IH]; intros new_groups e left;
    cbn [sort_groups_while]; [done|].
  destruct (sort_groups_body W3DGroup group new_groups) as [new1|e1] eqn:Hbody.
  - intros (lost & -> & Hlen & _)%IH. exists (group :: lost).
    split; [done|].
    apply sort_groups_body_Permutation, Permutation_length in Hbody.
    cbn in *. lia.
  - intros [= <- <-]. exists [group]. split; [done|].
    destruct new_groups; [by rewrite sort_groups_body_nil in Hbody|].
    cbn. lia.
Qed.

(** X23.  When [sort_groups] fails, the list of the project has lost the
    groups popped by then, at least two: they are in no list the project
    holds. *)
Theorem sort_groups_Raise groups e left :
  sort_groups W3DGroup groups = (Raise e, left) ->
  exists lost,
    groups = (left ++ lost)%list /\ (2 <= length lost)%nat.
Proof.
  unfold sort_groups.
  destruct (sort_groups_while W3DGroup (reverse groups) []) as [r popped]
    eqn:Hwhile.
  intros [= -> <-].
  apply sort_groups_while_Raise in Hwhile as (lost & Heq & Hlen & _).
  exists (reverse lost). split.
  - by rewrite <- reverse_app, <- Heq, reverse_involutive.
  - rewrite length_reverse. cbn in Hlen. lia.
Qed.

End GroupLaws.

Section PrettyLaws.
Context `{Python}.

Implicit Types (s line : string) (lines : list string).

Lemma split_lines_not_nil s : split_lines s <> [].
Proof.
  destruct s as [|c s]; cbn [split_lines]; [done|].
  destruct (Ascii.eqb c LF); [done|]. by destruct (split_lines s).
Qed.

Lemma split_lines_single s :
  Forall (fun line => split_lines line = [line]) (split_lines s).
Proof.
  induction s as [|c s IH]; cbn [split_lines].
  - by constructor.
  - destruct (Ascii.eqb c LF) eqn:Hc; [by constructor|].
    destruct (split_lines s) as [|line lines] eqn:Hs;
      [by destruct (split_lines_not_nil s)|].
    apply Forall_cons in IH as [Hline Hlines].
    constructor; [|done]. cbn [split_lines]. by rewrite Hc, Hline.
Qed.

Lemma split_lines_append line s :
  split_lines line = [line] ->
  split_lines (line +:+ String LF s) = line :: split_lines s.
Proof.
  induction line as [|c line IH].
  - intros _. change (EmptyString +:+ String LF s) with (String LF s).
    cbn [split_lines]. by rewrite Ascii.eqb_refl.
  - change (String c line +:+ String LF s)
      with (String c (line +:+ String LF s)).
    cbn [split_lines]. destruct (Ascii.eqb c LF); [done|].
    destruct (split_lines line) as [|l ls] eqn:Hl; [by destruct (split_lines_not_nil line)|].
    intros [= -> ->]. by rewrite IH.
Qed.

Lemma append_assoc (a b c : string) : (a +:+ b) +:+ c = a +:+ (b +:+ c).
Proof.
  induction a as [|x a IH]; [done|].
  change (String x ((a +:+ b) +:+ c) = String x (a +:+ (b +:+ c))).
  by rewrite IH.
Qed.

Lemma join_fold sep lines : forall a b,
  fold_left (fun acc t => acc +:+ sep +:+ t) lines (a +:+ b)
  = a +:+ fold_left (fun acc t => acc +:+ sep +:+ t) lines b.
Proof.
  induction lines as [|l lines IH]; intros a b; cbn [fold_left]; [done|].
  by rewrite append_assoc, IH.
Qed.

Lemma join_cons sep line lines :
  join sep (line :: lines)
  = match lines with
    | [] => line
    | _ => line +:+ sep +:+ join sep lines
    end.
Proof.
  destruct lines as [|l lines]; [done|].
  unfold join. cbn [fold_left]. by rewrite join_fold, join_fold.
Qed.

Lemma split_lines_join lines :
  lines <> [] -> Forall (fun line => split_lines line = [line]) lines ->
  split_lines (join (String LF EmptyString) lines) = lines.
Proof.
  induction lines as [|line lines IH]; [done|].
  intros _ [Hline Hlines]%Forall_cons. rewrite join_cons.
  destruct lines as [|l lines]; [done|].
  change (line +:+ String LF EmptyString +:+ ?s)
    with (line +:+ String LF s).
  rewrite (split_lines_append _ _ Hline). by rewrite IH.
Qed.

Lemma filter_filter {A} (f : A -> bool) (l : list A) :
  List.filter f (List.filter f l) = List.filter f l.
Proof.
  induction l as [|a l IH]; cbn; [done|].
  destruct (f a) eqn:Hf; cbn; by rewrite ?Hf, IH.
Qed.

(** X24.  The lines of the text [toprettyxml] returns are the lines of
    minidom's text that are not blank, in their order; when all are blank
    the text is empty; and, [strip] leaving the empty text empty, running
    it on its own result changes nothing. *)
Theorem toprettyxml_lines xml_string :
  let kept := List.filter not_blank (split_lines xml_string) in
  (kept <> [] -> split_lines (toprettyxml xml_string) = kept)
  /\ (kept = [] -> toprettyxml xml_string = EmptyString)
  /\ (str_strip EmptyString = EmptyString ->
      toprettyxml (toprettyxml xml_string) = toprettyxml xml_string).
Proof.
  intros kept.
  assert (Forall (fun line => split_lines line = [line]) kept) as Hsingle.
  { apply Forall_forall. intros line Hin.
    apply list_elem_of_In, filter_In in Hin as [Hin _].
    pose proof (split_lines_single xml_string) as Hall.
    rewrite Forall_forall in Hall. by apply Hall, list_elem_of_In. }
  assert (kept <> [] -> split_lines (toprettyxml xml_string) = kept) as Hkept.
  { intros Hne. by apply split_lines_join. }
  split; [done|]. split.
  - unfold toprettyxml. fold kept. by intros ->.
  - intros Hstrip. destruct (decide (kept = [])) as [Hnil|Hne].
    + assert (toprettyxml xml_string = EmptyString) as ->.
      { unfold toprettyxml. fold kept. by rewrite Hnil. }
      unfold toprettyxml. cbn [split_lines List.filter].
      unfold not_blank. by rewrite Hstrip.
    + unfold toprettyxml at 1. rewrite (Hkept Hne).
      subst kept. by rewrite filter_filter.
Qed.

End PrettyLaws.

(** ** The further properties, run *)

Section MoreRuns.

#[local] Existing Instance Sample.python.
#[local] Existing Instance Sample.modules.
#[local] Existing Instance Studio.blender.

(** Two durations given to the Cube action: the second stays. *)
Lemma update_last_write_wins_witness :
  <["duration" := PyInt 3]> Studio.slow_cube !! "duration" = Some (PyInt 3).
Proof.
  assert (update ObjectAction cube
            [("duration", PyInt 2); ("duration", PyInt 3)]
          = Return (<["duration" := PyInt 3]> Studio.slow_cube)) as Hupdate
    by reflexivity.
  apply (proj1 (update_last_write_wins ObjectAction _ _ _ Hupdate)
           [("duration", PyInt 2)] "duration" (PyInt 3) []).
  - reflexivity.
  - apply not_elem_of_nil.
Defined.

(** A duration, a color that is no triple, a scale: the duration is
    written, the scale is not. *)
Lemma update_in_place_first_rejected_witness :
  update_in_place ObjectAction cube
    [("duration", PyInt 2); ("color", PyInt 5); ("scale", PyInt 3)]
  = (Raise (InvalidArgument "5 is not a valid value for option color"),
     Studio.slow_cube).
Proof.
  apply (proj2 (proj2 (update_in_place_first_rejected ObjectAction
                         [("duration", PyInt 2); ("color", PyInt 5);
                          ("scale", PyInt 3)] cube))
           [("duration", PyInt 2)] "color" (PyInt 5) [("scale", PyInt 3)]);
    reflexivity.
Defined.

(** The Cube action as the constructor returns it. *)
Lemma init_keeps_schema_witness :
  valid ObjectAction cube
  /\ (forall key,
        is_Some (cube !! key)
        <-> key ∈ ([] ++ [("object_name", PyStr "Cube")])%list.*1)
  /\ (forall key,
        key ∈ ([] ++ [("object_name", PyStr "Cube")])%list.*1 ->
        is_default ObjectAction cube key = false).
Proof.
  apply (init_keeps_schema ObjectAction [] [("object_name", PyStr "Cube")]
           cube).
  reflexivity.
Defined.

(** A write of duration leaves object_name alone. *)
Lemma setitem_changes_one_attribute_witness :
  getitem ObjectAction Studio.slow_cube "object_name"
  = (fst (getitem ObjectAction cube "object_name"), Studio.slow_cube)
  /\ contains Studio.slow_cube "object_name" = contains cube "object_name"
  /\ is_default ObjectAction Studio.slow_cube "object_name"
     = is_default ObjectAction cube "object_name".
Proof.
  apply (setitem_changes_one_attribute ObjectAction cube "duration"
           (PyInt 2)).
  - reflexivity.
  - discriminate.
Defined.

(** The GroupAction made without arguments. *)
Lemma GroupAction_choose_random_witness :
  getitem GroupAction ∅ "choose_random" = (Return (PyBool false), ∅)
  /\ is_default GroupAction ∅ "choose_random" = true.
Proof.
  apply (proj2 (GroupAction_choose_random ∅)). apply valid_empty.
Defined.

(** The CaveResetAction made without arguments. *)
Lemma CaveResetAction_holds_nothing_witness :
  (@nil (string * pyval)) = [] /\ (@nil (string * pyval)) = []
  /\ (∅ : gmap string pyval) = ∅.
Proof.
  apply (proj1 (proj2 CaveResetAction_holds_nothing) [] [] ∅). reflexivity.
Defined.

(** The body of the dispatch on a GroupRef element. *)
Lemma CaveAction_fromXML_body_never_returns_witness :
  CaveAction_fromXML_body groupref_document = Raise TypeError.
Proof.
  apply (proj1 (proj2 (CaveAction_fromXML_body_never_returns
                         groupref_document))).
  apply Exists_cons. right. apply Exists_cons. left. reflexivity.
Defined.

(** What the body of the parser returns for the element of scenario A. *)
Lemma ObjectAction_fromXML_body_Return_witness :
  let a := {| class_of := IsObjectAction; items := Studio.cube_read |} in
  class_of a = IsObjectAction
  /\ valid ObjectAction (items a)
  /\ is_Some (attrib cube_document !! "name")
  /\ items a !! "object_name" = attrib cube_document !! "name"
  /\ holds_only ["object_name"; "duration"; "visible"; "move_relative";
                 "placement"] (items a)
  /\ (is_Some (items a !! "placement")
      <-> is_Some (items a !! "move_relative")).
Proof.
  apply (ObjectAction_fromXML_body_Return cube_document
           {| class_of := IsObjectAction; items := Studio.cube_read |}).
  reflexivity.
Defined.

(** An ObjectChange element without a Transition child. *)
Lemma ObjectAction_fromXML_body_malformed_witness :
  ObjectAction_fromXML_body Studio.bare_change = Raise AttributeError.
Proof.
  apply (proj2 (ObjectAction_fromXML_body_malformed Studio.bare_change)).
  - exists (PyStr "Cube"). reflexivity.
  - reflexivity.
Defined.

(** The painted Cube, written. *)
Lemma ObjectAction_toXML_document_witness :
  exists duration,
    get ObjectAction Studio.painted "duration" = Return duration
    /\ document (ObjectAction_toXML Studio.painted)
       = Return (object_document Studio.painted (PyStr "Cube") duration).
Proof.
  apply (ObjectAction_toXML_document Studio.painted (PyStr "Cube")).
  - reflexivity.
  - reflexivity.
  - reflexivity.
  - exact (ex_intro _ "1,0,0" eq_refl).
Defined.

(** The painted Cube, written and read by the body of the parser. *)
Lemma ObjectAction_round_trip_through_body_witness :
  exists n a,
    document (ObjectAction_toXML Studio.painted) = Return n
    /\ ObjectAction_fromXML_body n = Return a
    /\ agrees_on ["object_name"; "duration"; "visible"] Studio.painted
         (items a)
    /\ holds_only ["object_name"; "duration"; "visible"] (items a).
Proof.
  apply (ObjectAction_round_trip_through_body Studio.painted "Cube").
  - reflexivity.
  - reflexivity.
  - reflexivity.
  - exact (ex_intro _ "1,0,0" eq_refl).
  - intros duration Hd.
    change (Return (PyInt 1) = Return duration) in Hd. injection Hd as <-.
    exists (PyFloat (Sample.whole 1)).
    split; [reflexivity|]. split; [reflexivity|].
    eexists. split; reflexivity.
  - exists (PyBool true). split; [reflexivity|]. split; [reflexivity|].
    eexists. split; reflexivity.
Defined.

(** A Sound without anything. *)
Lemma W3DSound_toXML_unnamed_witness :
  W3DSound_toXML ∅ Parent []
  = (Raise (ConsistencyError (must_set "name")), []).
Proof. apply (proj1 (W3DSound_toXML_unnamed ∅ Parent [])). reflexivity. Defined.

(** The sound with every attribute set, written. *)
Lemma W3DSound_toXML_writes_what_is_set_witness :
  exists sound mode settings_node,
    document (W3DSound_toXML Sample.full_sound) = Return sound
    /\ tag sound = PyStr "Sound"
    /\ map tag (children sound)
       = [PyStr "Mode"; PyStr "Repeat"; PyStr "Settings"]
    /\ attrib sound !! "name" = Some (PyStr (py_str (PyStr "hum")))
    /\ attrib sound !! "filename" = Some (PyStr (py_str (PyStr "hum.wav")))
    /\ attrib sound !! "autostart"
       = (fun v => PyStr (bool2text v)) <$> Sample.full_sound !! "autostart"
    /\ get W3DSound Sample.full_sound "movement_mode" = Return mode
    /\ find "Mode" sound
       = Some (Node (PyStr "Mode") ∅ None [Node mode ∅ None []])
    /\ find "Settings" sound = Some settings_node
    /\ children settings_node = []
    /\ attrib settings_node !! "freq"
       = (fun v => PyStr (py_str v)) <$> Sample.full_sound !! "frequency_scale"
    /\ attrib settings_node !! "volume"
       = (fun v => PyStr (py_str v)) <$> Sample.full_sound !! "volume_scale"
    /\ attrib settings_node !! "pan"
       = (fun v => PyStr (py_str v)) <$> Sample.full_sound !! "pan".
Proof.
  apply (W3DSound_toXML_writes_what_is_set Sample.full_sound (PyStr "hum")
           (PyStr "hum.wav") (PyInt 3) (NumZ 3)); reflexivity.
Defined.

(** The element of the looping sound, read. *)
Lemma W3DSound_fromXML_Return_witness :
  let y := Studio.forever_read in
  valid W3DSound y
  /\ holds_only sound_keys y
  /\ is_Some (attrib looping_document !! "name")
  /\ y !! "name" = attrib looping_document !! "name"
  /\ is_Some (attrib looping_document !! "filename")
  /\ y !! "filename" = attrib looping_document !! "filename"
  /\ (is_Some (y !! "autostart")
      <-> is_Some (attrib looping_document !! "autostart"))
  /\ (exists movement_node mode,
        find "Mode" looping_document = Some movement_node
        /\ mode ∈ movement_modes
        /\ is_Some (find mode movement_node)
        /\ y !! "movement_mode" = Some (PyStr mode))
  /\ is_default W3DSound y "movement_mode" = false
  /\ is_default W3DSound y "repetitions" = false
  /\ (exists settings_node,
        find "Settings" looping_document = Some settings_node
        /\ (is_Some (y !! "frequency_scale")
            <-> is_Some (attrib settings_node !! "freq"))
        /\ (is_Some (y !! "volume_scale")
            <-> is_Some (attrib settings_node !! "volume"))
        /\ (is_Some (y !! "pan")
            <-> is_Some (attrib settings_node !! "pan"))).
Proof.
  apply (W3DSound_fromXML_Return looping_document Studio.forever_read).
  reflexivity.
Defined.

Lemma W3DSound_fromXML_repetitions_witness :
  exists repeat_node repetitions,
    find "Repeat" looping_document = Some repeat_node
    /\ Studio.forever_read !! "repetitions" = Some repetitions
    /\ repetitions_read repeat_node repetitions.
Proof.
  apply (W3DSound_fromXML_repetitions looping_document Studio.forever_read).
  reflexivity.
Defined.

(** A Sound element that spells its number of repetitions out. *)
Lemma W3DSound_fromXML_unreadable_repeat_witness :
  W3DSound_fromXML Studio.spelled_repeat = Raise ValueError.
Proof.
  refine (W3DSound_fromXML_unreadable_repeat Studio.spelled_repeat
            (PyStr "hum") (PyStr "hum.wav")
            (Node (PyStr "Mode") ∅ None [Node (PyStr "Positional") ∅ None []])
            (Node (PyStr "Repeat") ∅ None
               [Node (PyStr "RepeatNum") ∅ (Some "three") []])
            _ _ _ _ _ _ _ _ _ _ _); try reflexivity.
  exists "Positional". split; [apply list_elem_of_here|].
  eexists. reflexivity.
Defined.

(** The looping sound as read, written again. *)
Lemma W3DSound_read_then_written_witness :
  exists z sound,
    Studio.forever_read !! "repetitions" = Some (PyInt z)
    /\ document (W3DSound_toXML Studio.forever_read) = Return sound
    /\ find "Repeat" sound
       = Some (Node (PyStr "Repeat") ∅ None (repeat_children_int z)).
Proof.
  apply (W3DSound_read_then_written looping_document Studio.forever_read).
  reflexivity.
Defined.

(** hum.wav asked for in a silent Blender: it is opened, and kept. *)
Lemma generate_blender_audio_from_file_once_witness :
  (exists cache,
     Some Studio.hum_kept = Some cache
     /\ cache !! "hum.wav" = Some Studio.hum_sound)
  /\ (forall depth' data'',
        generate_blender_audio_from_file (S depth') "hum.wav"
          (Some Studio.hum_kept) data''
        = Some (Return Studio.hum_sound, Some Studio.hum_kept, data'')).
Proof.
  apply (generate_blender_audio_from_file_once 3 "hum.wav" None
           Studio.silence Studio.hum_sound (Some Studio.hum_kept)
           [Studio.hum_sound]).
  reflexivity.
Defined.

Lemma generate_blender_audio_from_file_depth_witness :
  generate_blender_audio_from_file 3 "hum.wav" None Studio.silence
  = Some (Return Studio.hum_sound, Some Studio.hum_kept, [Studio.hum_sound]).
Proof.
  apply (proj2 (proj2 (generate_blender_audio_from_file_depth "hum.wav" None
                         Studio.silence))
           [Studio.hum_sound] Studio.hum_sound []); reflexivity.
Defined.

(** The outer group listed first: the inner one comes out first. *)
Lemma sort_groups_Permutation_witness :
  [Studio.inner; Studio.outer] ≡ₚ [Studio.outer; Studio.inner]
  /\ (@nil (gmap string pyval)) = [].
Proof.
  apply (sort_groups_Permutation Studio.group_class
           [Studio.outer; Studio.inner] [Studio.inner; Studio.outer] []).
  reflexivity.
Defined.

(** Two groups that hold nothing. *)
Lemma sort_groups_flat_witness :
  sort_groups Studio.group_class [Studio.inner; Studio.other]
  = (Return (reverse [Studio.inner; Studio.other]), []).
Proof.
  apply (sort_groups_flat Studio.group_class [Studio.inner; Studio.other]).
  intros a b Ha Hb.
  rewrite !elem_of_cons, elem_of_nil in Ha, Hb.
  destruct Ha as [->|[->|[]]], Hb as [->|[->|[]]];
    (eexists _, _; split; [reflexivity|]; split; reflexivity).
Defined.

(** The inner group listed first. *)
Lemma sort_groups_member_first_witness :
  [Studio.inner; Studio.outer] `sublist_of` [Studio.inner; Studio.outer].
Proof.
  apply (sort_groups_member_first Studio.group_class
           [Studio.inner; Studio.outer] Studio.inner Studio.outer [] [] []
           [Studio.inner; Studio.outer] []).
  - reflexivity.
  - reflexivity.
  - eexists _, _. split; [reflexivity|]. split; reflexivity.
Defined.

(** A group without a name, sorted with another. *)
Lemma sort_groups_Raise_witness :
  exists lost,
    [Studio.nameless; Studio.outer] = ([] ++ lost)%list
    /\ (2 <= length lost)%nat.
Proof.
  apply (sort_groups_Raise Studio.group_class
           [Studio.nameless; Studio.outer] (KeyError "name") []).
  reflexivity.
Defined.

(** Two lines with a blank one between them. *)
Lemma toprettyxml_lines_witness :
  split_lines (toprettyxml Studio.spaced) = ["a"; "b"].
Proof.
  assert (List.filter not_blank (split_lines Studio.spaced) = ["a"; "b"])
    as Hkept by reflexivity.
  rewrite <- Hkept. apply (proj1 (toprettyxml_lines Studio.spaced)).
  rewrite Hkept. discriminate.
Defined.

End MoreRuns.
